(** * SmartSpendAI: the orchestration layer around the LLM gateway

    A shallow embedding of the TypeScript sources
    - [services/geminiService.ts]  (rate-limit classifier, categorize, insights),
    - [components/TransactionList.tsx] (CSV import, categorize-merge, manual edit),
    - [components/ChatBot.tsx] (streaming chat),
    - [App.tsx] and [types.ts] (seed data and the data model),
    followed by the properties of these functions.

    Conventions of the embedding.
    - A JavaScript string is a [string]: the UTF-8 bytes of its text.  All the
      separators and patterns the program searches for are ASCII, so that
      searching and splitting bytes is searching and splitting characters.
    - A JavaScript number is an IEEE-754 binary64 value, [spec_float] of the
      standard library (no NaN payload).  Time stamps, which are integral
      and far below 2^53, are kept in [N].
    - React state is passed explicitly: the updates of one handler are
      applied in program order.  Where what is displayed in between is at
      stake (the chat), an updater passed to [setMessages] is queued and
      run at the next render, as React does; when React renders is up to
      the host.
    - An asynchronous function is a function to an [Outcome]: the value its
      promise is fulfilled with, or the value it is rejected with.
    - What the program obtains from outside (the answers of the remote
      model, what [JSON.parse] makes of a text, the clock) is a field of
      the class [Host]; every handler is defined for an arbitrary host. *)

From Stdlib Require Import ZArith NArith List String Ascii Bool Lia.
From Stdlib Require Import DecimalString SpecFloat.
From Stdlib Require Import DecimalN DecimalPos Permutation.
Import ListNotations.

Local Open Scope list_scope.
Local Open Scope string_scope.

(* ================================================================== *)
(** * JavaScript strings and arrays *)
(* ================================================================== *)

Module JS.

(** ** Strings *)

(** [s.startsWith(p)], the test behind [includes]. *)
Fixpoint startsWith (s p : string) {struct p} : bool :=
  match p, s with
  | EmptyString, _ => true
  | String _ _, EmptyString => false
  | String b p', String a s' => Ascii.eqb a b && startsWith s' p'
  end.

(** [s.includes(p)]: [p] occurs in [s] at some position. *)
Fixpoint includes (s p : string) : bool :=
  startsWith s p ||
  match s with
  | EmptyString => false
  | String _ s' => includes s' p
  end.

(** The declarative reading of "contains the substring". *)
Definition Substring (p s : string) : Prop :=
  exists before after, s = (before ++ p ++ after)%string.

(** [s.split(sep)] for a separator of one character: the fields between
    the separators, in order; the empty string has the single field [""]. *)
Fixpoint split (sep : ascii) (s : string) : list string :=
  match s with
  | EmptyString => [EmptyString]
  | String c s' =>
      if Ascii.eqb c sep then EmptyString :: split sep s'
      else match split sep s' with
           | [] => [String c EmptyString]
           | f :: fs => String c f :: fs
           end
  end.

(** [a.join(sep)] on an array of strings. *)
Fixpoint join (sep : string) (a : list string) : string :=
  match a with
  | [] => EmptyString
  | [x] => x
  | x :: rest => x ++ sep ++ join sep rest
  end.

(** ECMAScript white space and line terminators, as UTF-8 byte sequences:
    TAB LF VT FF CR SP, U+00A0, U+1680, U+2000..U+200A, U+2028, U+2029,
    U+202F, U+205F, U+3000, U+FEFF.  [stripWhite s] removes one such
    character from the front of [s], when there is one. *)
Definition isAsciiWhite (c : ascii) : bool :=
  let n := nat_of_ascii c in
  ((9 <=? n) && (n <=? 13))%nat || (n =? 32)%nat.

Definition stripWhite (s : string) : option string :=
  match s with
  | EmptyString => None
  | String c r =>
      if isAsciiWhite c then Some r else
      match nat_of_ascii c, r with
      | 194, String d r1 =>
          if (nat_of_ascii d =? 160)%nat then Some r1 else None
      | 225, String d (String e r2) =>
          if ((nat_of_ascii d =? 154) && (nat_of_ascii e =? 128))%nat
          then Some r2 else None
      | 226, String d (String e r2) =>
          let d := nat_of_ascii d in
          let e := nat_of_ascii e in
          if ((d =? 128) && (((128 <=? e) && (e <=? 138))
                             || (e =? 168) || (e =? 169) || (e =? 175)))%nat
          then Some r2
          else if ((d =? 129) && (e =? 159))%nat then Some r2 else None
      | 227, String d (String e r2) =>
          if ((nat_of_ascii d =? 128) && (nat_of_ascii e =? 128))%nat
          then Some r2 else None
      | 239, String d (String e r2) =>
          if ((nat_of_ascii d =? 187) && (nat_of_ascii e =? 191))%nat
          then Some r2 else None
      | _, _ => None
      end
  end.

(** The same set, declaratively: the code points of WhiteSpace and
    LineTerminator, the UTF-8 bytes of a code point of the basic plane,
    and the texts made of such characters only. *)
Definition whiteSpaceCodes : list N :=
  [ 9; 10; 11; 12; 13; 32; 160; 5760;
    8192; 8193; 8194; 8195; 8196; 8197; 8198; 8199; 8200; 8201; 8202;
    8232; 8233; 8239; 8287; 12288; 65279 ]%N.

Definition utf8 (cp : N) : string :=
  if (cp <? 128)%N then String (ascii_of_N cp) EmptyString
  else if (cp <? 2048)%N then
    String (ascii_of_N (192 + cp / 64))
      (String (ascii_of_N (128 + cp mod 64)) EmptyString)
  else
    String (ascii_of_N (224 + cp / 4096))
      (String (ascii_of_N (128 + (cp / 64) mod 64))
         (String (ascii_of_N (128 + cp mod 64)) EmptyString)).

Inductive WhiteSpace : string -> Prop :=
| white_empty : WhiteSpace EmptyString
| white_char (cp : N) (s : string) :
    In cp whiteSpaceCodes -> WhiteSpace s -> WhiteSpace (utf8 cp ++ s).

(** [s.trimStart()]; the fuel is the length of [s], which bounds the number
    of characters removed. *)
Fixpoint trimStart_fuel (fuel : nat) (s : string) : string :=
  match fuel with
  | O => s
  | S fuel' =>
      match stripWhite s with
      | Some r => trimStart_fuel fuel' r
      | None => s
      end
  end.

Definition trimStart (s : string) : string :=
  trimStart_fuel (String.length s) s.

(** The same on the reversed bytes, for [trimEnd]: a white-space character
    read backwards. *)
Fixpoint rev_string (s : string) : string :=
  match s with
  | EmptyString => EmptyString
  | String c r => rev_string r ++ String c EmptyString
  end.

Definition stripWhiteEnd (r : string) : option string :=
  match r with
  | EmptyString => None
  | String c r1 =>
      if isAsciiWhite c then Some r1 else
      match r1 with
      | String d r2 =>
          match stripWhite (String d (String c EmptyString)) with
          | Some EmptyString => Some r2
          | _ =>
              match r2 with
              | String e r3 =>
                  match stripWhite (String e (String d (String c EmptyString))) with
                  | Some EmptyString => Some r3
                  | _ => None
                  end
              | EmptyString => None
              end
          end
      | EmptyString => None
      end
  end.

Fixpoint trimEnd_fuel (fuel : nat) (r : string) : string :=
  match fuel with
  | O => r
  | S fuel' =>
      match stripWhiteEnd r with
      | Some r' => trimEnd_fuel fuel' r'
      | None => r
      end
  end.

Definition trimEnd (s : string) : string :=
  rev_string (trimEnd_fuel (String.length s) (rev_string s)).

(** [s.trim()]. *)
Definition trim (s : string) : string := trimEnd (trimStart s).

(** Truthiness of a string: [!s] holds exactly for the empty string. *)
Definition truthy_string (s : string) : bool :=
  match s with
  | EmptyString => false
  | String _ _ => true
  end.

(** [a || b] on strings. *)
Definition or_string (a b : string) : string :=
  if truthy_string a then a else b.

(** [n.toString()] for an integral number in the safe range. *)
Definition N_toString (n : N) : string := NilZero.string_of_uint (N.to_uint n).

(** [n] zeros, and [n] in decimal on at least [width] digits. *)
Fixpoint zeros (n : nat) : string :=
  match n with
  | O => EmptyString
  | S n' => String "0" (zeros n')
  end.

Definition padStart (width : nat) (n : N) : string :=
  let d := N_toString n in
  zeros (width - String.length d) ++ d.

(** ** Dates *)

(** The civil date (year, month, day) of the day number [z] counted from
    1970-01-01, in the proleptic Gregorian calendar. *)
Definition civil_from_days (z : N) : N * N * N :=
  let z := (z + 719468)%N in
  let era := (z / 146097)%N in
  let doe := (z - era * 146097)%N in
  let yoe := ((doe - doe / 1460 + doe / 36524 - doe / 146096) / 365)%N in
  let doy := (doe - (365 * yoe + yoe / 4 - yoe / 100))%N in
  let mp := ((5 * doy + 2) / 153)%N in
  let d := (doy - (153 * mp + 2) / 5 + 1)%N in
  let m := if (mp <? 10)%N then (mp + 3)%N else (mp - 9)%N in
  let y := (yoe + era * 400 + (if (m <=? 2)%N then 1 else 0))%N in
  (y, m, d).

(** [new Date(t).toISOString()] for a time value [t] in milliseconds. *)
Definition Date_toISOString (t : N) : string :=
  let '(y, m, d) := civil_from_days (t / 86400000) in
  let year := if (y <=? 9999)%N then padStart 4 y else "+" ++ padStart 6 y in
  year ++ "-" ++ padStart 2 m ++ "-" ++ padStart 2 d
    ++ "T" ++ padStart 2 (t / 3600000 mod 24)
    ++ ":" ++ padStart 2 (t / 60000 mod 60)
    ++ ":" ++ padStart 2 (t / 1000 mod 60)
    ++ "." ++ padStart 3 (t mod 1000) ++ "Z".

(** ** Arrays *)

(** The relative index of [Array.prototype.slice]: negative counts from the
    end, and the result is clamped to [0..len]. *)
Definition relative_index (len : nat) (i : Z) : nat :=
  if (i <? 0)%Z then Z.to_nat (Z.max (Z.of_nat len + i) 0)
  else Nat.min (Z.to_nat i) len.

(** [a.slice(start, end)]; [end] omitted is [None]. *)
Definition slice {A : Type} (start : Z) (end_ : option Z) (a : list A) : list A :=
  let len := List.length a in
  let k := relative_index len start in
  let final := match end_ with
               | None => len
               | Some e => relative_index len e
               end in
  firstn (final - k) (skipn k a).

(** [a[i]], undefined ([None]) outside the array. *)
Definition index {A : Type} (a : list A) (i : Z) : option A :=
  if (i <? 0)%Z then None else nth_error a (Z.to_nat i).

(** [a.find(p)]. *)
Definition find {A : Type} (p : A -> bool) (a : list A) : option A :=
  List.find p a.

End JS.

(* ================================================================== *)
(** * JavaScript numbers *)
(* ================================================================== *)

Module Number.

(** A Number is a binary64 value. *)
Definition number : Type := spec_float.

Definition prec : Z := 53.
Definition emax : Z := 1024.

Definition NaN : number := S754_nan.
Definition zero : number := S754_zero false.

(** The global [isNaN] on a Number. *)
Definition isNaN (x : number) : bool :=
  match x with
  | S754_nan => true
  | _ => false
  end.

(** [Math.abs(x)]. *)
Definition abs (x : number) : number := SFabs x.

(** [x < y], [x <= y] and [x === y] on Numbers. *)
Definition ltb (x y : number) : bool := SFltb x y.
Definition leb (x y : number) : bool := SFleb x y.
Definition eqb (x y : number) : bool := SFeqb x y.

(** The Number nearest to [m * 10^e] (ties to even), negated when [neg]:
    the value of a decimal literal with digits [m] and exponent [e]. *)
Definition of_decimal (neg : bool) (m : N) (e : Z) : number :=
  match m with
  | N0 => S754_zero neg
  | Npos p =>
      if (0 <=? e)%Z
      then binary_round prec emax neg (p * Z.to_pos (10 ^ e)) 0
      else
        let '(q, e', l) :=
          SFdiv_core_binary prec emax (Zpos p) 0 (10 ^ (- e)) 0 in
        binary_round_aux prec emax neg q e' l
  end.

(** A non-negative integer as a Number. *)
Definition of_N (n : N) : number := of_decimal false n 0.

(** *** [parseFloat] *)

Definition digit_of (c : ascii) : option N :=
  let n := nat_of_ascii c in
  if ((48 <=? n) && (n <=? 57))%nat then Some (N.of_nat (n - 48)) else None.

(** The longest run of decimal digits at the front of [s]: its value when
    appended to the digits read so far ([acc]), how many there are, and the
    rest of [s]. *)
Fixpoint digits (acc : N) (count : nat) (s : string) : N * nat * string :=
  match s with
  | EmptyString => (acc, count, s)
  | String c r =>
      match digit_of c with
      | Some d => digits (10 * acc + d) (S count) r
      | None => (acc, count, s)
      end
  end.

Definition sign_of (s : string) : bool * string :=
  match s with
  | String "-" r => (true, r)
  | String "+" r => (false, r)
  | _ => (false, s)
  end.

(** The exponent part [e], [E] followed by an optional sign and at least
    one digit; anything else at this place is not part of the literal. *)
Definition exponent_of (s : string) : Z :=
  match s with
  | String c r =>
      if (Ascii.eqb c "e" || Ascii.eqb c "E")%bool then
        let '(neg, r1) := sign_of r in
        let '(v, n, _) := digits 0 0 r1 in
        match n with
        | O => 0%Z
        | S _ => if neg then (- Z.of_N v)%Z else Z.of_N v
        end
      else 0%Z
  | EmptyString => 0%Z
  end.

(** [parseFloat(s)]: leading white space is skipped, then the longest
    prefix that is a StrDecimalLiteral is read (a sign, then [Infinity] or
    digits with an optional fraction and exponent) and rounded to the
    nearest Number; [NaN] when there is no such prefix. *)
Definition parseFloat (s : string) : number :=
  let '(neg, t) := sign_of (JS.trimStart s) in
  if JS.startsWith t "Infinity" then S754_infinity neg else
  let '(ip, ni, t1) := digits 0 0 t in
  let '(m, nf, t2) :=
    match t1 with
    | String "." r => digits ip 0 r
    | _ => (ip, O, t1)
    end in
  match (ni + nf)%nat with
  | O => NaN
  | S _ => of_decimal neg m (exponent_of t2 - Z.of_nat nf)
  end.

(** [parseFloat] reads a Number exactly when, after the leading white
    space and an optional sign, the text starts with [Infinity], with a
    digit, or with a point followed by a digit. *)
Definition hasNumericPrefix (s : string) : bool :=
  let '(_, t) := sign_of (JS.trimStart s) in
  JS.startsWith t "Infinity"
  || let '(_, ni, t1) := digits 0 0 t in
     match ni, t1 with
     | S _, _ => true
     | O, String "." r => match digits 0 0 r with
                          | (_, S _, _) => true
                          | _ => false
                          end
     | O, _ => false
     end.

(** *** [Number.prototype.toString] *)

(** The exact value [m * 2^e] of a finite Number as a fraction. *)
Definition fraction (m : positive) (e : Z) : Z * Z :=
  if (0 <=? e)%Z then (Zpos m * 2 ^ e, 1)%Z else (Zpos m, 2 ^ (- e))%Z.

(** The fraction times [10^j]. *)
Definition scale10 (f : Z * Z) (j : Z) : Z * Z :=
  let '(a, b) := f in
  if (0 <=? j)%Z then (a * 10 ^ j, b)%Z else (a, b * 10 ^ (- j))%Z.

(** The least [n], from [n] upwards, with [x < 10^n]. *)
Fixpoint magnitude (fuel : nat) (f : Z * Z) (n : Z) : Z :=
  match fuel with
  | O => n
  | S fuel' =>
      let '(a, b) := scale10 f (- n) in
      if (a <? b)%Z then n else magnitude fuel' f (n + 1)
  end.

(** The [k]-digit decimals next to [x], below and above; the one that
    reads back as [x], the nearer one when both do (the even one on a
    tie). *)
Definition shortest_at (x : number) (f : Z * Z) (n k : Z) : option Z :=
  let '(a, b) := scale10 f (k - n) in
  let lo := (a / b)%Z in
  let hi := (lo + 1)%Z in
  let reads s := SFeqb (of_decimal false (Z.to_N s) (n - k)) x in
  match reads lo, reads hi with
  | true, false => Some lo
  | false, true => Some hi
  | false, false => None
  | true, true =>
      match (2 * (a - lo * b) ?= b)%Z with
      | Lt => Some lo
      | Gt => Some hi
      | Eq => if Z.even lo then Some lo else Some hi
      end
  end.

(** The shortest digits: the least [k] from [k] upwards for which some
    [k]-digit [s] has [s * 10^(n-k)] read back as [x]. *)
Fixpoint shortest (fuel : nat) (x : number) (f : Z * Z) (n k : Z)
  : option (Z * Z) :=
  match fuel with
  | O => None
  | S fuel' =>
      match shortest_at x f n k with
      | Some s => Some (s, k)
      | None => shortest fuel' x f n (k + 1)
      end
  end.

(** The layout of the digits [s] (there are [k]) of a Number in
    [10^(n-1) .. 10^n]. *)
Definition layout (s : string) (k n : Z) : string :=
  if ((-5 <=? n) && (n <=? 21))%Z then
    if (k <=? n)%Z then s ++ JS.zeros (Z.to_nat (n - k))
    else if (0 <? n)%Z then
      substring 0 (Z.to_nat n) s ++ "."
        ++ substring (Z.to_nat n) (Z.to_nat (k - n)) s
    else "0." ++ JS.zeros (Z.to_nat (- n)) ++ s
  else
    let e := (n - 1)%Z in
    let c := if (e <? 0)%Z then "-" else "+" in
    let digits_e := JS.N_toString (Z.to_N (Z.abs e)) in
    if (k =? 1)%Z then s ++ "e" ++ c ++ digits_e
    else substring 0 1 s ++ "." ++ substring 1 (Z.to_nat (k - 1)) s
           ++ "e" ++ c ++ digits_e.

(** [x.toString()]. *)
Definition toString (x : number) : string :=
  match x with
  | S754_nan => "NaN"
  | S754_zero _ => "0"
  | S754_infinity false => "Infinity"
  | S754_infinity true => "-Infinity"
  | S754_finite neg m e =>
      let f := fraction m e in
      let n := magnitude 700 f (-324) in
      match shortest 17 (S754_finite false m e) f n 1 with
      | None => EmptyString    (* not reached on a binary64 value *)
      | Some (s, k) =>
          let '(s, n) := if (s =? 10 ^ k)%Z then (10 ^ (k - 1), n + 1)%Z
                         else (s, n) in
          (if neg then "-" else "")
            ++ layout (JS.N_toString (Z.to_N s)) k n
      end
  end.

End Number.

(* ================================================================== *)
(** * The data model: [types.ts] *)
(* ================================================================== *)

Module Types.
Import Number.

Inductive TransactionType : Type :=
| INCOME
| EXPENSE.

Record Transaction : Type := mkTransaction {
  id : string;
  date : string;
  description : string;
  amount : number;
  type : TransactionType;
  category : string;
  isAnomaly : option bool        (* [isAnomaly?: boolean] *)
}.

Inductive Role : Type :=
| user
| model.

Record ChatMessage : Type := mkChatMessage {
  msg_id : string;
  role : Role;
  text : string;
  timestamp : N
}.

Definition CATEGORIES : list string :=
  [ "Food & Dining"; "Transportation"; "Housing"; "Utilities";
    "Entertainment"; "Shopping"; "Healthcare"; "Income"; "Uncategorized" ].

Definition TransactionType_toString (t : TransactionType) : string :=
  match t with
  | INCOME => "INCOME"
  | EXPENSE => "EXPENSE"
  end.

Definition Role_eqb (a b : Role) : bool :=
  match a, b with
  | user, user | model, model => true
  | _, _ => false
  end.

(** Object spread with one field replaced: [{ ...t, category: c }]. *)
Definition with_category (t : Transaction) (c : string) : Transaction :=
  {| id := id t; date := date t; description := description t;
     amount := amount t; type := type t;
     category := c; isAnomaly := isAnomaly t |}.

(** [{ ...t, category: c, isAnomaly: a }]. *)
Definition with_category_isAnomaly (t : Transaction) (c : string) (a : bool)
  : Transaction :=
  {| id := id t; date := date t; description := description t;
     amount := amount t; type := type t;
     category := c; isAnomaly := Some a |}.

(** [{ ...msg, text: s }]. *)
Definition with_text (m : ChatMessage) (s : string) : ChatMessage :=
  {| msg_id := msg_id m; role := role m; text := s; timestamp := timestamp m |}.

End Types.

(* ================================================================== *)
(** * Values that can be thrown, and the host of the program *)
(* ================================================================== *)

Module Host.
Import Number Types.

(** A JavaScript value as far as the program looks at one: a primitive, or
    an object seen through its [status] and [message] properties (each
    [JUndefined] when absent) and the string its [toString()] returns. *)
Inductive JsValue : Type :=
| JUndefined
| JNull
| JBoolean (b : bool)
| JNumber (n : number)
| JString (s : string)
| JObject (status message : JsValue) (toString : string).

(** [new Error(msg)] with a non-empty message: no [status], and
    [toString()] is ["Error: " + msg]. *)
Definition new_Error (msg : string) : JsValue :=
  JObject JUndefined (JString msg) ("Error: " ++ msg).

(** The answer of [await ai.models.generateContent(...)]: the promise is
    rejected with a value, or resolved with a response whose [text] is a
    string or undefined. *)
Inductive Reply : Type :=
| Rejected (error : JsValue)
| Resolved (response_text : option string).

(** The declared response schema of a structured request: an ARRAY whose
    items are OBJECTs with the given properties. *)
Inductive FieldType : Type :=
| STRING
| BOOLEAN.

Record ArrayOfObjects : Type := mkArrayOfObjects {
  properties : list (string * FieldType);
  required : list string
}.

Record ResponseConfig : Type := mkResponseConfig {
  responseMimeType : string;
  responseSchema : ArrayOfObjects
}.

Record Request : Type := mkRequest {
  req_model : string;
  contents : string;
  config : option ResponseConfig
}.

(** One record of the categorize response. *)
Record Categorized : Type := mkCategorized {
  r_id : string;
  r_category : string;
  r_isAnomaly : bool
}.

(** What [JSON.parse] does on a response text: it returns the array of
    records, or throws (a SyntaxError, whose message is chosen by the
    engine). *)
Inductive Parse : Type :=
| Parsed (records : list Categorized)
| ParseThrows (error : JsValue).

(** What a chat stream does: the call itself is rejected, or it yields
    chunks (each with a [text] that is a string or undefined) and then
    either completes or throws. *)
Inductive Stream : Type :=
| StreamRejected (error : JsValue)
| Chunks (chunks : list (option string)) (failure : option JsValue).

(** The projection of a transaction that is sent to be categorized. *)
Record TransactionBrief : Type := mkBrief {
  b_id : string;
  b_description : string;
  b_amount : number;
  b_type : TransactionType
}.

(** The host: the remote model ([generateContent] and the chat session),
    the JSON parser of the engine, the clock ([Date_now k] is what the
    [k]-th reading of the clock returns, in milliseconds) and the pace of
    the page ([renders k] tells whether React gets to render while a send
    is suspended for the [k]-th time: waiting for the stream to open and
    yield its first chunk when [k] is 0, for what follows the [k]-th
    chunk otherwise; it does when the chunks arrive apart, and does not
    when they arrive together). *)
Class Host : Type := {
  generateContent : Request -> Reply;
  sendMessageStream : string -> Stream;
  JSON_parse : string -> Parse;
  Date_now : nat -> N;
  renders : nat -> bool
}.

(** Truthiness: [!v] is [negb (truthy v)]. *)
Definition truthy (v : JsValue) : bool :=
  match v with
  | JUndefined | JNull => false
  | JBoolean b => b
  | JNumber n =>
      match n with
      | S754_nan | S754_zero _ => false
      | _ => true
      end
  | JString s => JS.truthy_string s
  | JObject _ _ _ => true
  end.

(** The string form of a value, [String(v)]; for a truthy value this is
    what [v.toString()] returns. *)
Definition toString (v : JsValue) : string :=
  match v with
  | JUndefined => "undefined"
  | JNull => "null"
  | JBoolean true => "true"
  | JBoolean false => "false"
  | JNumber n => Number.toString n
  | JString s => s
  | JObject _ _ str => str
  end.

(** [v.status] and [v.message]; a primitive has neither. *)
Definition get_status (v : JsValue) : JsValue :=
  match v with
  | JObject st _ _ => st
  | _ => JUndefined
  end.

Definition get_message (v : JsValue) : JsValue :=
  match v with
  | JObject _ m _ => m
  | _ => JUndefined
  end.

(** [v === n] for a Number [n], and [v === s] for a string [s]. *)
Definition strict_eq_number (v : JsValue) (n : number) : bool :=
  match v with
  | JNumber x => Number.eqb x n
  | _ => false
  end.

Definition strict_eq_string (v : JsValue) (s : string) : bool :=
  match v with
  | JString x => String.eqb x s
  | _ => false
  end.


(** The outcome of an asynchronous function: its promise is fulfilled with
    a value or rejected with a thrown value. *)
Inductive Outcome (A : Type) : Type :=
| Returns (a : A)
| Throws (error : JsValue).
Arguments Returns {A} a.
Arguments Throws {A} error.

(** The value of an outcome that is not an error. *)
Definition returned {A : Type} (o : Outcome A) : option A :=
  match o with
  | Returns a => Some a
  | Throws _ => None
  end.

End Host.

(* ================================================================== *)
(** * The gateway: [services/geminiService.ts] *)
(* ================================================================== *)

Module GeminiService.
Import Number Types Host.

Definition nl : string := String (ascii_of_nat 10) EmptyString.
Definition dquote : string := String (ascii_of_nat 34) EmptyString.

(** The quoting of a string in JSON: the quote, the backslash and the
    control characters are escaped. *)
Definition hexDigit (n : nat) : string :=
  substring n 1 "0123456789abcdef".

Definition quoteChar (c : ascii) : string :=
  let n := nat_of_ascii c in
  let backslash := String (ascii_of_nat 92) EmptyString in
  if (n =? 8)%nat then backslash ++ "b"
  else if (n =? 9)%nat then backslash ++ "t"
  else if (n =? 10)%nat then backslash ++ "n"
  else if (n =? 12)%nat then backslash ++ "f"
  else if (n =? 13)%nat then backslash ++ "r"
  else if (n =? 34)%nat then backslash ++ dquote
  else if (n =? 92)%nat then backslash ++ backslash
  else if (n <? 32)%nat
       then backslash ++ "u00" ++ hexDigit (n / 16) ++ hexDigit (n mod 16)
       else String c EmptyString.

Fixpoint quoteChars (s : string) : string :=
  match s with
  | EmptyString => EmptyString
  | String c r => quoteChar c ++ quoteChars r
  end.

Definition quote (s : string) : string := dquote ++ quoteChars s ++ dquote.

(** [JSON.stringify] on the array of briefs: members in the order they are
    written, strings quoted, a Number that is not finite written [null]. *)
Definition JSON_number (x : number) : string :=
  match x with
  | S754_finite _ _ _ | S754_zero _ => Number.toString x
  | _ => "null"
  end.

Definition JSON_brief (b : TransactionBrief) : string :=
  "{" ++ quote "id" ++ ":" ++ quote (b_id b)
      ++ "," ++ quote "description" ++ ":" ++ quote (b_description b)
      ++ "," ++ quote "amount" ++ ":" ++ JSON_number (b_amount b)
      ++ "," ++ quote "type" ++ ":"
      ++ quote (TransactionType_toString (b_type b)) ++ "}".

Definition JSON_stringify (a : list TransactionBrief) : string :=
  "[" ++ JS.join "," (map JSON_brief a) ++ "]".

(** The HTTP status 429 as a Number. *)
Definition n429 : number := Eval vm_compute in of_N 429.

Section Gateway.
Context `{Host}.

(** Helper to check for rate limit errors. *)
Definition isRateLimitError (error : JsValue) : bool :=
  if negb (truthy error) then false else
  let errString := toString error in
  strict_eq_number (get_status error) n429
  || JS.includes errString "429"
  || JS.includes errString "RESOURCE_EXHAUSTED"
  || JS.includes errString "quota".

Definition brief (t : Transaction) : TransactionBrief :=
  {| b_id := id t; b_description := description t;
     b_amount := amount t; b_type := type t |}.

Definition categorizePrompt (transactions : list Transaction) : string :=
  JS.join nl
    [ "";
      "    You are a financial assistant. I will provide a list of transaction descriptions and amounts.";
      "    For each transaction, assign the most appropriate category from this list: ";
      "    ['Food & Dining', 'Transportation', 'Housing', 'Utilities', 'Entertainment', 'Shopping', 'Healthcare', 'Income', 'Uncategorized'].";
      "    ";
      "    Also, flag " ++ dquote ++ "isAnomaly" ++ dquote ++ " as true if the amount seems unusually high for that category context (e.g. > $200 for coffee/fast food, > $5000 for shopping) or strictly if the description looks like a scam/error.";
      "    ";
      "    Input Transactions:";
      "    " ++ JSON_stringify (map brief transactions);
      "  " ].

Definition categorizeRequest (transactions : list Transaction) : Request :=
  {| req_model := "gemini-2.5-flash";
     contents := categorizePrompt transactions;
     config := Some
       {| responseMimeType := "application/json";
          responseSchema :=
            {| properties := [ ("id", STRING); ("category", STRING);
                               ("isAnomaly", BOOLEAN) ];
               required := [ "id"; "category"; "isAnomaly" ] |} |} |}.

(** The [catch] block of [categorizeTransactions]. *)
Definition categorize_catch (error : JsValue) : Outcome (list Categorized) :=
  if isRateLimitError error then Throws (new_Error "RATE_LIMIT")
  else Returns [].

(** [categorizeTransactions]: everything thrown inside the [try], by the
    call or by [JSON.parse], reaches the one [catch]. *)
Definition categorizeTransactions (transactions : list Transaction)
  : Outcome (list Categorized) :=
  match generateContent (categorizeRequest transactions) with
  | Rejected error => categorize_catch error
  | Resolved response_text =>
      match response_text with
      | None => Returns []
      | Some jsonText =>
          if negb (JS.truthy_string jsonText) then Returns [] else
          match JSON_parse jsonText with
          | Parsed records => Returns records
          | ParseThrows error => categorize_catch error
          end
      end
  end.

(** One line of the summary:
    [`${t.date}: ${t.description} ($${t.amount}) - ${t.category}`]. *)
Definition summaryLine (t : Transaction) : string :=
  date t ++ ": " ++ description t ++ " ($" ++ Number.toString (amount t)
         ++ ") - " ++ category t.

Definition summary (transactions : list Transaction) : string :=
  JS.join nl (map summaryLine (JS.slice 0 (Some 50%Z) transactions)).

Definition insightsPrompt (transactions : list Transaction) : string :=
  JS.join nl
    [ "";
      "    Analyze these recent financial transactions and provide a short, bulleted list (max 3 points) of key insights. ";
      "    Focus on spending trends, potential savings, or unusual activity.";
      "    Keep it friendly and concise.";
      "    ";
      "    Data:";
      "    " ++ summary transactions;
      "  " ].

Definition insightsRequest (transactions : list Transaction) : Request :=
  {| req_model := "gemini-2.5-flash";
     contents := insightsPrompt transactions;
     config := None |}.

Definition NO_INSIGHTS : string := "No insights available at this time.".
Definition INSIGHTS_FAILED : string :=
  "Could not generate insights at this time. Please try again later.".

(** [getSpendingInsights]. *)
Definition getSpendingInsights (transactions : list Transaction)
  : Outcome string :=
  match generateContent (insightsRequest transactions) with
  | Resolved response_text =>
      Returns (match response_text with
               | Some t => JS.or_string t NO_INSIGHTS
               | None => NO_INSIGHTS
               end)
  | Rejected error =>
      if isRateLimitError error then Throws (new_Error "RATE_LIMIT")
      else Returns INSIGHTS_FAILED
  end.

End Gateway.
End GeminiService.

(* ================================================================== *)
(** * The transaction view: [components/TransactionList.tsx] *)
(* ================================================================== *)

Module TransactionList.
Import Number Types Host GeminiService.

(** The state the handlers read and write: the transaction store (owned by
    [App], reached through [setTransactions]) and the local state of the
    component.  [ticks] counts the readings of the clock made so far. *)
Record State : Type := mkState {
  transactions : list Transaction;
  isAutoCategorizing : bool;
  editingId : option string;
  errorMsg : option string;
  ticks : nat
}.

Definition setTransactions (f : list Transaction -> list Transaction)
  (s : State) : State :=
  {| transactions := f (transactions s);
     isAutoCategorizing := isAutoCategorizing s;
     editingId := editingId s; errorMsg := errorMsg s; ticks := ticks s |}.

Definition setIsAutoCategorizing (b : bool) (s : State) : State :=
  {| transactions := transactions s; isAutoCategorizing := b;
     editingId := editingId s; errorMsg := errorMsg s; ticks := ticks s |}.

Definition setEditingId (e : option string) (s : State) : State :=
  {| transactions := transactions s;
     isAutoCategorizing := isAutoCategorizing s;
     editingId := e; errorMsg := errorMsg s; ticks := ticks s |}.

Definition setErrorMsg (e : option string) (s : State) : State :=
  {| transactions := transactions s;
     isAutoCategorizing := isAutoCategorizing s;
     editingId := editingId s; errorMsg := e; ticks := ticks s |}.

Definition setTicks (n : nat) (s : State) : State :=
  {| transactions := transactions s;
     isAutoCategorizing := isAutoCategorizing s;
     editingId := editingId s; errorMsg := errorMsg s; ticks := n |}.

Section Handlers.
Context `{Host}.

(** The body of the [forEach] callback of the CSV parse: what the line
    [line] at index [idx] pushes on [newTransactions], and the clock
    readings it makes ([Date.now()] for the id, [new Date()] when the date
    field is blank). *)
Definition importLine (tick : nat) (line : string) (idx : nat)
  : list Transaction * nat :=
  let parts := JS.split "," line in
  if (3 <=? List.length parts)%nat then
    let amount := parseFloat (nth 2 parts "") in
    if negb (isNaN amount) then
      let id := JS.N_toString (Date_now tick) ++ JS.N_toString (N.of_nat idx) in
      let day := JS.trim (nth 0 parts "") in
      let '(date, tick') :=
        if JS.truthy_string day then (day, S tick)
        else (hd "" (JS.split "T" (JS.Date_toISOString (Date_now (S tick)))),
              S (S tick)) in
      ([ {| id := id;
            date := date;
            description := JS.or_string (JS.trim (nth 1 parts "")) "Unknown";
            amount := Number.abs amount;
            type := if Number.ltb amount Number.zero then EXPENSE else INCOME;
            category := "Uncategorized";
            isAnomaly := None |} ],
       tick')
    else ([], tick)
  else ([], tick).

(** [lines.forEach((line, idx) => ...)], from index [idx] on. *)
Fixpoint importLines (lines : list string) (idx tick : nat)
  : list Transaction * nat :=
  match lines with
  | [] => ([], tick)
  | line :: rest =>
      let '(pushed, tick1) := importLine tick line idx in
      let '(more, tick2) := importLines rest (S idx) tick1 in
      ((pushed ++ more)%list, tick2)
  end.

(** The [onload] callback on the text of the file. *)
Definition parseCsv (text : string) (tick : nat) : list Transaction * nat :=
  let lines := JS.split (ascii_of_nat 10) text in
  importLines (JS.slice 1 None lines) 0 tick.

(** File Upload Handler.  [file] is the text of the chosen file, [None]
    when no file was chosen. *)
Definition handleFileUpload (file : option string) (s : State) : State :=
  match file with
  | None => s
  | Some text =>
      let '(newTransactions, tick) := parseCsv text (ticks s) in
      setTransactions (fun prev => (prev ++ newTransactions)%list)
                      (setTicks tick s)
  end.

Definition isUncategorized (t : Transaction) : bool :=
  String.eqb (category t) "Uncategorized"
  || negb (JS.truthy_string (category t)).

(** The updater [prev => prev.map(t => ...)] of the categorize-merge. *)
Definition mergeCategorized (results : list Categorized)
  (prev : list Transaction) : list Transaction :=
  map (fun t =>
         match JS.find (fun r => String.eqb (r_id r) (id t)) results with
         | Some match_ =>
             with_category_isAnomaly t (r_category match_) (r_isAnomaly match_)
         | None => t
         end) prev.

Definition QUOTA_EXCEEDED : string := "Quota exceeded. Please wait a minute.".
Definition CATEGORIZE_FAILED : string := "Failed to categorize. Try again later.".

(** [runAutoCategorization] from its first [set] on, with [awaited] the
    outcome of the call it awaits: the [try], the [catch] and the
    [finally]. *)
Definition categorizeWith (awaited : Outcome (list Categorized)) (s : State)
  : State :=
  let s := setErrorMsg None (setIsAutoCategorizing true s) in
  let s :=
    match awaited with
    | Returns results => setTransactions (mergeCategorized results) s
    | Throws e =>
        if strict_eq_string (get_message e) "RATE_LIMIT" || isRateLimitError e
        then setErrorMsg (Some QUOTA_EXCEEDED) s
        else setErrorMsg (Some CATEGORIZE_FAILED) s
    end in
  setIsAutoCategorizing false s.

Definition runAutoCategorization (s : State) : State :=
  let uncategorized := List.filter isUncategorized (transactions s) in
  if (List.length uncategorized =? 0)%nat then s else
  categorizeWith (categorizeTransactions uncategorized) s.

(** The updater of the manual edit. *)
Definition changeCategory (id_ newCategory : string)
  (prev : list Transaction) : list Transaction :=
  map (fun t => if String.eqb (id t) id_ then with_category t newCategory else t)
      prev.

Definition handleCategoryChange (id_ newCategory : string) (s : State)
  : State :=
  setEditingId None (setTransactions (changeCategory id_ newCategory) s).

End Handlers.

(** The invariant of the store on amounts: [0 <= t.amount]. *)
Definition amount_nonneg (t : Transaction) : Prop :=
  Number.leb Number.zero (amount t) = true.

(** What follows an exponent part ([e] or [E], an optional sign, at
    least one digit) at the front of [s]; [s] itself when there is none. *)
Definition afterExponent (s : string) : string :=
  match s with
  | String c r =>
      if (Ascii.eqb c "e" || Ascii.eqb c "E")%bool then
        let '(_, r1) := sign_of r in
        match digits 0 0 r1 with
        | (_, S _, rest) => rest
        | (_, O, _) => s
        end
      else s
  | EmptyString => s
  end.

(** Following the specification, which speaks of a third field that is
    "numeric": the field as a whole is the decimal notation of a number,
    that is, between white space, an optional sign, digits with an
    optional fraction or a fraction alone, and an optional exponent.
    ["-50"], ["12.5"] and [" 1e3 "] are numeric; ["12abc"],
    ["2024-01-05"], ["0x1F"], ["$50"] and [""] are not. *)
Definition isNumeric (field : string) : bool :=
  let '(_, t) := sign_of (JS.trimStart field) in
  let '(_, ni, t1) := digits 0 0 t in
  let '(nf, t2) :=
    match t1 with
    | String "." r => let '(_, nf, r') := digits 0 0 r in (nf, r')
    | _ => (O, t1)
    end in
  (0 <? ni + nf)%nat && String.eqb (JS.trimStart (afterExponent t2)) "".

(** The third field of a line, [parts[2]]. *)
Definition thirdField (line : string) : string := nth 2 (JS.split "," line) "".

(** What the amount column leaves in a transaction. *)
Definition entry (t : Transaction) : number * TransactionType :=
  (amount t, type t).

(** [r] is the record that [results.find(r => r.id === i)] returns: the
    first one of [results] whose id is [i]. *)
Definition FirstMatch (results : list Categorized) (i : string)
  (r : Categorized) : Prop :=
  exists before after,
    results = (before ++ r :: after)%list
    /\ r_id r = i
    /\ forall x, In x before -> r_id x <> i.

End TransactionList.

(* ================================================================== *)
(** * The chat view: [components/ChatBot.tsx] *)
(* ================================================================== *)

Module ChatBot.
Import Number Types Host GeminiService.

(** The state of the component.  [messages] is the list that React
    holds.  [installed] lists, oldest first, every value that an updater
    passed to [setMessages] returned when React ran it, and [displayed]
    the value of [messages] at every render since.  [ticks] counts the
    readings of the clock. *)
Record State : Type := mkState {
  messages : list ChatMessage;
  inputValue : string;
  isStreaming : bool;
  installed : list (list ChatMessage);
  displayed : list (list ChatMessage);
  ticks : nat
}.

Definition setInputValue (v : string) (s : State) : State :=
  {| messages := messages s; inputValue := v; isStreaming := isStreaming s;
     installed := installed s; displayed := displayed s; ticks := ticks s |}.

Definition setIsStreaming (b : bool) (s : State) : State :=
  {| messages := messages s; inputValue := inputValue s; isStreaming := b;
     installed := installed s; displayed := displayed s; ticks := ticks s |}.

Definition setTicks (n : nat) (s : State) : State :=
  {| messages := messages s; inputValue := inputValue s;
     isStreaming := isStreaming s; installed := installed s;
     displayed := displayed s; ticks := n |}.

(** React takes the value [next] that an updater returned. *)
Definition install (next : list ChatMessage) (s : State) : State :=
  {| messages := next; inputValue := inputValue s;
     isStreaming := isStreaming s;
     installed := (installed s ++ [next])%list;
     displayed := displayed s; ticks := ticks s |}.

(** React renders the list it holds. *)
Definition show (s : State) : State :=
  {| messages := messages s; inputValue := inputValue s;
     isStreaming := isStreaming s; installed := installed s;
     displayed := (displayed s ++ [messages s])%list; ticks := ticks s |}.

Definition GENERIC_ERROR : string :=
  "Sorry, I encountered an error. Please try again.".
Definition RATE_LIMIT_ERROR : string :=
  "⚠️ usage limits exceeded. Please wait a minute before trying again.".

(** Reading [lastMsg.role] when [prev] is empty. *)
Definition TypeError_lastMsg : JsValue :=
  let msg := "Cannot read properties of undefined (reading 'role')" in
  JObject JUndefined (JString msg) ("TypeError: " ++ msg).

(** The callback of the [map] in the updater of the stream,
    [msg => msg.id === botMsgId ? { ...msg, text: fullText } : msg]. *)
Definition fill (botMsgId fullText : string) (msg : ChatMessage) : ChatMessage :=
  if String.eqb (msg_id msg) botMsgId then with_text msg fullText else msg.

(** The updaters that the handler passes to [setMessages] before its
    [catch] block: [prev => [...prev, m]], and the updater of the stream,
    which closes over the variable [fullText] of the handler and not
    over its value. *)
Inductive Updater : Type :=
| Append (m : ChatMessage)
| FillText (botMsgId : string).

(** What an updater returns on [prev] when React runs it; [fullText] is
    the value that the variable of the handler has at that time. *)
Definition applyUpdater (fullText : string) (u : Updater)
  (prev : list ChatMessage) : list ChatMessage :=
  match u with
  | Append m => (prev ++ [m])%list
  | FillText botMsgId => map (fill botMsgId fullText) prev
  end.

(** A send while it runs: its variable [fullText], the updaters it has
    passed to [setMessages] that React has not run yet, oldest first,
    the number of times it has been suspended, and the view. *)
Record Run : Type := mkRun {
  fullText : string;
  queue : list Updater;
  waits : nat;
  view : State
}.

(** [setMessages(u)] queues the updater; React runs the queue at its
    next render. *)
Definition setMessages (u : Updater) (r : Run) : Run :=
  {| fullText := fullText r; queue := (queue r ++ [u])%list;
     waits := waits r; view := view r |}.

Definition setFullText (t : string) (r : Run) : Run :=
  {| fullText := t; queue := queue r; waits := waits r; view := view r |}.

Definition onView (f : State -> State) (r : Run) : Run :=
  {| fullText := fullText r; queue := queue r; waits := waits r;
     view := f (view r) |}.

(** React runs the updaters of [q] in order, each on what the one before
    returned. *)
Definition runQueue (fullText : string) (q : list Updater) (s : State)
  : State :=
  fold_left (fun s u => install (applyUpdater fullText u (messages s)) s) q s.

Definition drain (r : Run) : State :=
  runQueue (fullText r) (queue r) (view r).

(** A render: the queue is run and the list is shown. *)
Definition render (r : Run) : Run :=
  {| fullText := fullText r; queue := []; waits := waits r;
     view := show (drain r) |}.

Section Handlers.
Context `{Host}.

(** The handler is suspended at an [await]: React renders, or does not,
    before the handler goes on. *)
Definition await (r : Run) : Run :=
  let r' := if renders (waits r) then render r else r in
  {| fullText := fullText r'; queue := queue r'; waits := S (waits r);
     view := view r' |}.

(** One round of the [for await] loop: [fullText += textChunk], the
    update of the message whose id is [botMsgId], and the wait for what
    follows. *)
Definition streamStep (botMsgId : string) (r : Run) (chunk : option string)
  : Run :=
  let textChunk := match chunk with
                   | Some t => JS.or_string t ""
                   | None => ""
                   end in
  let r := setFullText (fullText r ++ textChunk) r in
  let r := setMessages (FillText botMsgId) r in
  await r.

Definition errorTextOf (error : JsValue) : string :=
  if isRateLimitError error then RATE_LIMIT_ERROR else GENERIC_ERROR.

(** The updater of the [catch] block; [None] when it throws, which it does
    on an empty list. *)
Definition replaceOrAppend (errorMessage : ChatMessage)
  (prev : list ChatMessage) : option (list ChatMessage) :=
  match JS.index prev (Z.of_nat (List.length prev) - 1) with
  | None => None
  | Some lastMsg =>
      if Role_eqb (role lastMsg) model && String.eqb (text lastMsg) ""
      then Some (JS.slice 0 (Some (-1)%Z) prev ++ [errorMessage])%list
      else Some (prev ++ [errorMessage])%list
  end.

(** The [catch] block.  Its updater is the last one of the handler:
    React runs it in the render that follows the handler, after the
    updaters still queued, and it reads the clock then. *)
Definition catchError (error : JsValue) (r : Run) : Outcome State :=
  let errorText := errorTextOf error in
  let s := drain r in
  let errorMessage :=
    {| msg_id := JS.N_toString (Date_now (ticks s)); role := model;
       text := errorText; timestamp := Date_now (S (ticks s)) |} in
  match replaceOrAppend errorMessage (messages s) with
  | Some next => Returns (install next (setTicks (S (S (ticks s))) s))
  | None => Throws TypeError_lastMsg
  end.

(** [finally { setIsStreaming(false) }], and the render that follows
    the handler. *)
Definition finally_ (o : Outcome State) : Outcome State :=
  match o with
  | Returns s' => Returns (show (setIsStreaming false s'))
  | Throws e => Throws e
  end.

(** [handleSend], up to the render that follows it: the view that this
    render shows, or the error that the updater of the [catch] block
    raised in it.  The placeholder is built inside its updater, so that
    its time stamp is read when React runs that updater; no other
    reading of the clock can come in between, and it is the fourth
    reading of the send whenever that is. *)
Definition handleSend (s : State) : Outcome State :=
  if negb (JS.truthy_string (JS.trim (inputValue s))) || isStreaming s
  then Returns s else
  let userMsg :=
    {| msg_id := JS.N_toString (Date_now (ticks s)); role := user;
       text := inputValue s; timestamp := Date_now (S (ticks s)) |} in
  let r := {| fullText := ""; queue := []; waits := 0;
              view := setTicks (S (S (ticks s))) s |} in
  let r := setMessages (Append userMsg) r in
  let r := onView (setInputValue "") r in
  let r := onView (setIsStreaming true) r in
  (* try *)
  let botMsgId := JS.N_toString (Date_now (ticks (view r)) + 1) in
  let placeholder :=
    {| msg_id := botMsgId; role := model; text := "";
       timestamp := Date_now (S (ticks (view r))) |} in
  let r := onView (setTicks (S (S (ticks (view r))))) r in
  let r := setMessages (Append placeholder) r in
  let r := await r in
  finally_
    match sendMessageStream (text userMsg) with
    | StreamRejected error => catchError error r
    | Chunks chunks failure =>
        let r := fold_left (streamStep botMsgId) chunks r in
        match failure with
        | None => Returns (drain r)
        | Some error => catchError error r
        end
    end.

(** The messages that [handleSend] creates from the state [s] it starts
    in: the message of the user, and the placeholder that the stream
    fills. *)
Definition userMsgOf (s : State) : ChatMessage :=
  {| msg_id := JS.N_toString (Date_now (ticks s)); role := user;
     text := inputValue s; timestamp := Date_now (S (ticks s)) |}.

Definition botMsgIdOf (s : State) : string :=
  JS.N_toString (Date_now (S (S (ticks s))) + 1).

Definition placeholderOf (s : State) : ChatMessage :=
  {| msg_id := botMsgIdOf s; role := model; text := "";
     timestamp := Date_now (S (S (S (ticks s)))) |}.

(** The send at its first [await]: the message of the user and the
    placeholder are queued, the input is cleared and the busy flag is
    set; and the send after this [await]. *)
Definition queued (s : State) : Run :=
  {| fullText := "";
     queue := [Append (userMsgOf s); Append (placeholderOf s)];
     waits := 0;
     view := {| messages := messages s; inputValue := "";
                isStreaming := true; installed := installed s;
                displayed := displayed s;
                ticks := S (S (S (S (ticks s)))) |} |}.

Definition opened (s : State) : Run := await (queued s).

(** The send when the stream ends, after all of [chunks]. *)
Definition streamed (s : State) (chunks : list (option string)) : Run :=
  fold_left (streamStep (botMsgIdOf s)) chunks (opened s).

End Handlers.

(** The text of a chunk, [c.text || '']. *)
Definition chunkText (chunk : option string) : string :=
  match chunk with
  | Some t => t
  | None => ""
  end.

(** The concatenation, left to right, of a list of strings. *)
Fixpoint concatenation (l : list string) : string :=
  match l with
  | [] => ""
  | x :: rest => x ++ concatenation rest
  end.

(** The list that the queue [q] leaves of [l]. *)
Definition final (fullText : string) (q : list Updater)
  (l : list ChatMessage) : list ChatMessage :=
  fold_left (fun l u => applyUpdater fullText u l) q l.

(** The text that the message at position [k] of a list shows. *)
Definition shownAt (k : nat) (l : list ChatMessage) : option string :=
  option_map text (nth_error l k).

Section Suspension.
Context `{Host}.

(** The list of a send started in [s] once React has run the updaters
    queued up to the chunks [received]. *)
Definition listAfter (s : State) (received : list (option string))
  : list ChatMessage :=
  let open := ((messages s ++ [userMsgOf s]) ++ [placeholderOf s])%list in
  match received with
  | [] => open
  | _ :: _ =>
      map (fill (botMsgIdOf s) (concatenation (map chunkText received))) open
  end.

(** What holds of a send started in [s] whenever it is suspended in the
    loop, after the chunks [received]. *)
Definition Suspended (s : State) (received : list (option string)) (r : Run)
  : Prop :=
  let open := ((messages s ++ [userMsgOf s]) ++ [placeholderOf s])%list in
  let b := botMsgIdOf s in
  fullText r = concatenation (map chunkText received)
  /\ waits r = S (List.length received)
  /\ (forall t, map (fill b t) (final t (queue r) (messages (view r)))
                = map (fill b t) open)
  /\ messages (drain r) = listAfter s received
  /\ (List.length (installed (view r)) + List.length (queue r)
      = List.length (installed s) + 2 + List.length received)%nat
  /\ nth_error (installed (drain r))
               (S (List.length (installed s)) + List.length received)
     = Some (messages (drain r))
  /\ displayed (view r)
     = (displayed s
        ++ map (fun k => listAfter s (firstn k received))
               (List.filter renders (seq 0 (S (List.length received)))))%list
  /\ inputValue (view r) = ""
  /\ isStreaming (view r) = true
  /\ ticks (view r) = (4 + ticks s)%nat.

End Suspension.

End ChatBot.

(* ================================================================== *)
(** * The seed data: [App.tsx] *)
(* ================================================================== *)

Module App.
Import Number Types.

Definition tx (id date description : string) (amount : number)
  (type : TransactionType) (category : string) (isAnomaly : option bool)
  : Transaction :=
  mkTransaction id date description amount type category isAnomaly.

(** Dummy Initial Data; each amount is the Number its literal denotes. *)
Definition INITIAL_DATA : list Transaction :=
  [ tx "1" "2023-11-01" "Salary Deposit" (of_decimal false 4500 0) INCOME "Income" None;
    tx "2" "2023-11-03" "Whole Foods Market" (of_decimal false 12450 (-2)) EXPENSE "Food & Dining" None;
    tx "3" "2023-11-05" "Uber Trip" (of_decimal false 2400 (-2)) EXPENSE "Transportation" None;
    tx "4" "2023-11-05" "Netflix Subscription" (of_decimal false 1599 (-2)) EXPENSE "Entertainment" None;
    tx "5" "2023-11-07" "Electric Bill" (of_decimal false 14520 (-2)) EXPENSE "Utilities" None;
    tx "6" "2023-11-10" "Luxury Bag Store" (of_decimal false 250000 (-2)) EXPENSE "Shopping" (Some true);
    tx "7" "2023-11-12" "Coffee Shop" (of_decimal false 650 (-2)) EXPENSE "Food & Dining" None;
    tx "8" "2023-11-15" "Rent Payment" (of_decimal false 180000 (-2)) EXPENSE "Housing" None;
    tx "9" "2023-11-16" "Unknown Charge 9928" (of_decimal false 4999 (-2)) EXPENSE "Uncategorized" None ].

End App.

(* ================================================================== *)
(** * The dashboard: [components/Dashboard.tsx] *)
(* ================================================================== *)

Module Dashboard.
Import Number Types Host GeminiService.

(** [x + y] and [x - y] on Numbers. *)
Definition add (x y : number) : number := SFadd prec emax x y.
Definition sub (x y : number) : number := SFsub prec emax x y.

(** Truthiness of a Number: zero and NaN are falsy. *)
Definition truthy_number (x : number) : bool :=
  match x with
  | S754_nan | S754_zero _ => false
  | _ => true
  end.

Definition COLORS : list string :=
  [ "#0088FE"; "#00C49F"; "#FFBB28"; "#FF8042"; "#A284F6"; "#F56E99";
    "#4ECDC4" ].

(** The fill of the pie cell at [index], [COLORS[index % COLORS.length]]. *)
Definition cellColor (index : nat) : option string :=
  nth_error COLORS (index mod List.length COLORS).

Definition isIncome (t : Transaction) : bool :=
  match type t with
  | INCOME => true
  | EXPENSE => false
  end.

Definition isExpense (t : Transaction) : bool :=
  match type t with
  | INCOME => false
  | EXPENSE => true
  end.

(** [ts.reduce((acc, t) => acc + t.amount, 0)]. *)
Definition sumAmounts (ts : list Transaction) : number :=
  fold_left (fun acc t => add acc (amount t)) ts Number.zero.

Record Summary : Type := mkSummary {
  income : number;
  expense : number;
  balance : number
}.

(** The memoized [summary]. *)
Definition summary (transactions : list Transaction) : Summary :=
  let income := sumAmounts (List.filter isIncome transactions) in
  let expense := sumAmounts (List.filter isExpense transactions) in
  {| income := income; expense := expense; balance := sub income expense |}.

(** A [Map<string, number>] as the list of its entries in insertion
    order: [get], and [set], which keeps the place of a key that is
    present and appends one that is not. *)
Fixpoint Map_get (m : list (string * number)) (key : string) : option number :=
  match m with
  | [] => None
  | (k, v) :: rest => if String.eqb k key then Some v else Map_get rest key
  end.

Fixpoint Map_set (m : list (string * number)) (key : string) (value : number)
  : list (string * number) :=
  match m with
  | [] => [(key, value)]
  | (k, v) :: rest =>
      if String.eqb k key then (k, value) :: rest
      else (k, v) :: Map_set rest key value
  end.

(** [catMap.get(key) || 0]: zero when the key is absent, and also when
    its value is zero or NaN. *)
Definition getOrZero (m : list (string * number)) (key : string) : number :=
  match Map_get m key with
  | Some v => if truthy_number v then v else Number.zero
  | None => Number.zero
  end.

(** The entries of [catMap] after the [forEach] of [categoryData]. *)
Definition catMap (transactions : list Transaction) : list (string * number) :=
  fold_left
    (fun m t => Map_set m (category t) (add (getOrZero m (category t)) (amount t)))
    (List.filter isExpense transactions) [].

(** The memoized [anomalies]. *)
Definition anomalies (transactions : list Transaction) : list Transaction :=
  List.filter (fun t => match isAnomaly t with
                        | Some b => b
                        | None => false
                        end) transactions.

(** The state of the insight panel. *)
Record State : Type := mkState {
  insight : option string;
  loadingInsight : bool;
  insightError : bool;
  isRateLimit : bool
}.






Section Handlers.
Context `{Host}.



End Handlers.

(** A Number that is zero or more and has its sign bit clear: what a sum
    of non-negative amounts is. *)
Definition plus (x : number) : Prop :=
  match x with
  | S754_zero false | S754_infinity false | S754_finite false _ _ => True
  | _ => False
  end.

(** The callback of the [forEach] of [categoryData]. *)
Definition step (m : list (string * number)) (t : Transaction)
  : list (string * number) :=
  Map_set m (category t) (add (getOrZero m (category t)) (amount t)).

(** The expenses of the category [c], in the order of the list. *)
Definition expensesOf (c : string) (ts : list Transaction) : list Transaction :=
  List.filter (fun t => isExpense t && String.eqb (category t) c) ts.

(** [v || 0] on what [get] returns, and the value that the [forEach]
    leaves for the key [c] when it starts from the value [o]. *)
Definition orZero (o : option number) : number :=
  match o with
  | Some v => if truthy_number v then v else Number.zero
  | None => Number.zero
  end.

Definition runningTotal (c : string) (ts : list Transaction)
  (o : option number) : option number :=
  fold_left (fun o t => if String.eqb (category t) c
                        then Some (add (orZero o) (amount t)) else o)
            ts o.

End Dashboard.

(* ================================================================== *)
(** * A scripted host *)
(* ================================================================== *)

Module Scripted.
Import Number Types Host.

(** A host that answers from a script: the model gives [reply] to every
    request and [stream] to every chat message, the parser is [parse], and
    the clock starts at [start] and advances by one millisecond between
    two readings. *)
Definition paced (pace : nat -> bool) (reply : Reply) (stream : Stream)
  (parse : string -> Parse) (start : N) : Host :=
  {| generateContent := fun _ => reply;
     sendMessageStream := fun _ => stream;
     JSON_parse := parse;
     Date_now := fun k => (start + N.of_nat k)%N;
     renders := pace |}.

(** The chunks of a stream arrive apart: React renders at every wait. *)
Definition host : Reply -> Stream -> (string -> Parse) -> N -> Host :=
  paced (fun _ => true).

(** The chunks of a stream arrive together: React renders while the
    stream opens, and not again before the stream ends. *)
Definition burst : Reply -> Stream -> (string -> Parse) -> N -> Host :=
  paced (fun k => (k =? 0)%nat).

(** 2024-01-15T10:30:00.000Z. *)
Definition start : N := 1705314600000.

Definition SyntaxError (msg : string) : JsValue :=
  JObject JUndefined (JString msg) ("SyntaxError: " ++ msg).

(** The error of the remote service on HTTP 429. *)
Definition ApiError429 : JsValue :=
  let msg := "got status: 429 Too Many Requests" in
  JObject (JNumber GeminiService.n429) (JString msg) ("ApiError: " ++ msg).

Definition NetworkError : JsValue :=
  JObject JUndefined (JString "Failed to fetch") "TypeError: Failed to fetch".


(** JSON text written with apostrophes in place of double quotes. *)
Fixpoint json (s : string) : string :=
  match s with
  | EmptyString => EmptyString
  | String c r =>
      String (if Ascii.eqb c "'" then ascii_of_nat 34 else c) (json r)
  end.

(** A parser that knows the texts of a table and rejects every other
    text. *)
Fixpoint parser (table : list (string * Parse)) (text : string) : Parse :=
  match table with
  | [] => ParseThrows (SyntaxError "Unexpected end of JSON input")
  | (t, p) :: rest => if String.eqb t text then p else parser rest text
  end.

(** *** Scenarios *)

(** A chat stream that yields nothing. *)
Definition quiet : Stream := Chunks [] None.

(** A response cut off inside a string, 429 characters long, and the
    error of [JSON.parse] on it, as the V8 engine words it: the string is still open
    where the text ends. *)
Definition truncated : string :=
  json "[{'id':'1','category':'Income','isAnomaly':false},{'id':'2','category':'Food & Dining','isAnomaly':false},{'id':'3','category':'Transportation','isAnomaly':false},{'id':'4','category':'Entertainment','isAnomaly':false},{'id':'5','category':'Utilities','isAnomaly':false},{'id':'6','category':'Shopping','isAnomaly':true},{'id':'7','category':'Food & Dining','isAnomaly':false},{'id':'8','category':'Housing','isAnomaly':false},{'".

Definition unterminated_429 : JsValue :=
  SyntaxError "Unterminated string in JSON at position 429".

(** The store of the end-to-end categorize scenario, the text of the
    response of the model, and its records. *)
Definition coffee : Transaction :=
  mkTransaction "1" "2023-11-12" "Coffee Shop" (of_decimal false 650 (-2))
                EXPENSE "Uncategorized" None.

Definition categorized : string :=
  json "[{'id':'1','category':'Food & Dining','isAnomaly':false}]".

Definition food : Categorized := mkCategorized "1" "Food & Dining" false.

(** The parser of the engine on the texts of the scenarios. *)
Definition engine : string -> Parse :=
  parser [ (truncated, ParseThrows unterminated_429);
           (categorized, Parsed [food]) ].

Definition nl : string := String (ascii_of_nat 10) EmptyString.

(** A statement to import: a header, an expense, an income, a line of two
    fields, a line whose amount is not numeric, and a line with a blank
    date and description whose amount is followed by a unit. *)

Definition statement : string :=
  "Date,Description,Amount" ++ nl
  ++ "2024-01-02,Coffee,-50" ++ nl
  ++ "2024-01-03,Salary,50" ++ nl
  ++ "2024-01-04,Lunch" ++ nl
  ++ ",Refund,abc" ++ nl
  ++ ", ,12.5 USD".

(** The chunks of the end-to-end chat scenario. *)
Definition greeting : list (option string) :=
  [ Some "Hel"; Some "lo, "; Some "how can I help?" ].

(** The transaction view on the seed data, and the chat view as it is
    mounted, with a question typed in. *)
Definition listView : TransactionList.State :=
  {| TransactionList.transactions := App.INITIAL_DATA;
     TransactionList.isAutoCategorizing := false;
     TransactionList.editingId := None;
     TransactionList.errorMsg := None;
     TransactionList.ticks := 0 |}.

Definition chatView : ChatBot.State :=
  {| ChatBot.messages :=
       [ {| msg_id := "1"; role := model;
            text := "Hello! I'm your Gemini FinBot. Ask me anything about budgeting strategies, saving tips, or financial concepts.";
            timestamp := 1705314500000 |} ];
     ChatBot.inputValue := "How do I start a budget?";
     ChatBot.isStreaming := false;
     ChatBot.installed := [];
     ChatBot.displayed := [];
     ChatBot.ticks := 0 |}.

End Scripted.

(* ================================================================== *)
(** * Flows across the views: what the statements below speak of *)
(* ================================================================== *)

Module Flows.
Import Number Types Host GeminiService.

(** A category that the categorization does not pick up again. *)
Definition categorizedName (c : string) : Prop :=
  c <> "Uncategorized" /\ c <> "".

Section Chat.
Context `{Host}.

(** The error message that the [catch] block of a send started in the
    state [s] creates: the clock has been read four times before. *)
Definition errorMessageOf (s : ChatBot.State) (e : JsValue) : ChatMessage :=
  {| msg_id := JS.N_toString (Date_now (4 + ChatBot.ticks s));
     role := model;
     text := ChatBot.errorTextOf e;
     timestamp := Date_now (5 + ChatBot.ticks s) |}.

(** The answer of the model with the text streamed by [chunks]. *)
Definition answerOf (s : ChatBot.State) (chunks : list (option string))
  : ChatMessage :=
  with_text (ChatBot.placeholderOf s)
            (ChatBot.concatenation (map ChatBot.chunkText chunks)).

(** What a send appends after the message of the user, by what the
    stream does. *)
Definition tailOf (s : ChatBot.State) : list ChatMessage :=
  match sendMessageStream (ChatBot.inputValue s) with
  | StreamRejected e => [errorMessageOf s e]
  | Chunks chunks None => [answerOf s chunks]
  | Chunks chunks (Some e) =>
      if String.eqb (text (answerOf s chunks)) ""
      then [errorMessageOf s e]
      else [answerOf s chunks; errorMessageOf s e]
  end.

End Chat.

(** The states of the transaction view that the handlers reach from the
    seed data; the host, and with it the answers of the model and the
    clock, may differ from one step to the next. *)
Inductive Reachable : TransactionList.State -> Prop :=
| reach_seed (s : TransactionList.State) :
    TransactionList.transactions s = App.INITIAL_DATA -> Reachable s
| reach_upload (h : Host) (file : option string) (s : TransactionList.State) :
    Reachable s -> Reachable (TransactionList.handleFileUpload file s)
| reach_edit (id_ newCategory : string) (s : TransactionList.State) :
    Reachable s ->
    Reachable (TransactionList.handleCategoryChange id_ newCategory s)
| reach_categorize (h : Host) (s : TransactionList.State) :
    Reachable s -> Reachable (TransactionList.runAutoCategorization s).

(** A host whose clock stands still at [Scripted.start]: every reading of
    one handler falls in the same millisecond. *)
Definition frozen (reply : Reply) (stream : Stream) : Host :=
  {| generateContent := fun _ => reply;
     sendMessageStream := fun _ => stream;
     JSON_parse := Scripted.engine;
     Date_now := fun _ => Scripted.start;
     renders := fun _ => true |}.

End Flows.

(* ================================================================== *)
(** * Facts about strings and arrays *)
(* ================================================================== *)

Module JSFacts.
Import JS.

Lemma startsWith_iff (p s : string) :
  startsWith s p = true <-> exists rest, s = p ++ rest.
Proof.
  revert s; induction p as [|b p IH]; intros s; simpl.
  - split; [intros _; now exists s | reflexivity].
  - destruct s as [|a s].
    + split; [discriminate | intros [rest E]; discriminate].
    + rewrite andb_true_iff, Ascii.eqb_eq, IH. split.
      * intros [-> [rest ->]]. now exists rest.
      * intros [rest E]. injection E as -> ->. split; [reflexivity | now exists rest].
Qed.

(** [includes] decides the occurrence of a substring. *)
Lemma includes_iff (p s : string) :
  includes s p = true <-> Substring p s.
Proof.
  unfold Substring. induction s as [|c s IH].
  - cbn [includes]. rewrite orb_false_r, startsWith_iff. split.
    + intros [rest E]. exists EmptyString, rest. exact E.
    + intros [before [after E]]. destruct before; [|discriminate].
      now exists after.
  - cbn [includes]. rewrite orb_true_iff, startsWith_iff, IH. split.
    + intros [[rest E] | [before [after E]]].
      * exists EmptyString, rest. exact E.
      * exists (String c before), after. simpl. now rewrite E.
    + intros [before [after E]]. destruct before as [|c' before].
      * left. now exists after.
      * right. injection E as _ E. now exists before, after.
Qed.

Lemma includes_false_iff (p s : string) :
  includes s p = false <-> ~ Substring p s.
Proof.
  rewrite <- includes_iff. destruct (includes s p); split; congruence.
Qed.

Lemma truthy_string_false (s : string) :
  truthy_string s = false <-> s = EmptyString.
Proof. destruct s; simpl; split; congruence. Qed.

Lemma or_string_empty (s : string) : or_string s "" = s.
Proof. now destruct s. Qed.

Lemma relative_index_nonneg (len : nat) (i : Z) :
  (0 <= i)%Z -> relative_index len i = Nat.min (Z.to_nat i) len.
Proof.
  intros Hi. unfold relative_index.
  destruct (i <? 0)%Z eqn:E; [apply Z.ltb_lt in E; lia | reflexivity].
Qed.

Lemma relative_index_neg (len : nat) (i : Z) :
  (i < 0)%Z -> relative_index len i = Z.to_nat (Z.max (Z.of_nat len + i) 0).
Proof.
  intros Hi. unfold relative_index.
  destruct (i <? 0)%Z eqn:E; [reflexivity | apply Z.ltb_ge in E; lia].
Qed.

(** [a.slice(0, n)] keeps the first [n] elements. *)
Lemma slice_0 {A : Type} (n : nat) (a : list A) :
  slice 0 (Some (Z.of_nat n)) a = firstn n a.
Proof.
  unfold slice. rewrite !relative_index_nonneg by lia.
  rewrite Nat2Z.id. change (Z.to_nat 0) with 0%nat.
  rewrite Nat.min_0_l, Nat.sub_0_r. simpl skipn.
  destruct (Nat.le_ge_cases n (List.length a)) as [L|L].
  - now rewrite Nat.min_l.
  - rewrite Nat.min_r by assumption.
    now rewrite !firstn_all2 by lia.
Qed.

(** [a.slice(1)] drops the first element. *)
Lemma slice_1 {A : Type} (a : list A) : slice 1 None a = tl a.
Proof.
  unfold slice. rewrite relative_index_nonneg by lia.
  change (Z.to_nat 1) with 1%nat.
  destruct a as [|x a]; [reflexivity|].
  simpl List.length. rewrite Nat.min_l by lia. simpl skipn. simpl tl.
  apply firstn_all2. lia.
Qed.

(** [a.slice(0, -1)] drops the last element. *)
Lemma slice_init {A : Type} (a : list A) (x : A) :
  slice 0 (Some (-1)%Z) (a ++ [x])%list = a.
Proof.
  unfold slice.
  rewrite (relative_index_nonneg _ 0), (relative_index_neg _ (-1)) by lia.
  change (Z.to_nat 0) with 0%nat. rewrite Nat.min_0_l, Nat.sub_0_r.
  simpl skipn. rewrite length_app. simpl List.length.
  replace (Z.to_nat (Z.max (Z.of_nat (List.length a + 1) + -1) 0))
    with (List.length a) by lia.
  rewrite firstn_app, firstn_all, Nat.sub_diag. simpl.
  apply app_nil_r.
Qed.

(** [a[a.length - 1]] is the last element. *)
Lemma index_last {A : Type} (a : list A) (x : A) :
  index (a ++ [x])%list (Z.of_nat (List.length (a ++ [x])%list) - 1) = Some x.
Proof.
  unfold index. rewrite length_app. simpl List.length.
  destruct (Z.of_nat (List.length a + 1) - 1 <? 0)%Z eqn:E;
    [apply Z.ltb_lt in E; lia|].
  replace (Z.to_nat (Z.of_nat (List.length a + 1) - 1)) with (List.length a) by lia.
  rewrite nth_error_app2 by lia. now rewrite Nat.sub_diag.
Qed.

Lemma index_nil {A : Type} :
  index (@nil A) (Z.of_nat (List.length (@nil A)) - 1) = None.
Proof. reflexivity. Qed.

End JSFacts.

(* ================================================================== *)
(** * Facts about numbers *)
(* ================================================================== *)

Module NumberFacts.
Import Number.

(** Rounding a non-negative mantissa never yields NaN. *)
Lemma shr_1_nonneg (mrs : shr_record) :
  (0 <= shr_m mrs)%Z -> (0 <= shr_m (shr_1 mrs))%Z.
Proof.
  destruct mrs as [m r s]. simpl.
  destruct m as [|p|p]; [| destruct p | lia]; simpl; lia.
Qed.

Lemma iter_shr_1_nonneg (p : positive) (mrs : shr_record) :
  (0 <= shr_m mrs)%Z -> (0 <= shr_m (iter_pos shr_1 p mrs))%Z.
Proof.
  revert mrs. induction p as [p IH | p IH |]; intros mrs Hm; simpl.
  - apply IH, IH, shr_1_nonneg, Hm.
  - apply IH, IH, Hm.
  - apply shr_1_nonneg, Hm.
Qed.

Lemma shr_fexp_nonneg (m e : Z) (l : location) :
  (0 <= m)%Z -> (0 <= shr_m (fst (shr_fexp prec emax m e l)))%Z.
Proof.
  intros Hm. unfold shr_fexp, shr.
  assert (H0 : (0 <= shr_m (shr_record_of_loc m l))%Z)
    by (destruct l as [|[| |]]; exact Hm).
  destruct (fexp prec emax (Zdigits2 m + e) - e)%Z; simpl; auto.
  now apply iter_shr_1_nonneg.
Qed.

Lemma round_nearest_even_nonneg (m : Z) (l : location) :
  (0 <= m)%Z -> (0 <= round_nearest_even m l)%Z.
Proof.
  intros Hm. destruct l as [|[| |]]; simpl; try lia.
  destruct (Z.even m); lia.
Qed.

Lemma binary_round_aux_not_NaN (sx : bool) (mx ex : Z) (lx : location) :
  (0 <= mx)%Z -> isNaN (binary_round_aux prec emax sx mx ex lx) = false.
Proof.
  intros Hm. unfold binary_round_aux.
  pose proof (shr_fexp_nonneg mx ex lx Hm) as H1.
  destruct (shr_fexp prec emax mx ex lx) as [mrs' e']. simpl fst in H1.
  pose proof (shr_fexp_nonneg _ e' loc_Exact
                (round_nearest_even_nonneg _ (loc_of_shr_record mrs') H1)) as H2.
  destruct (shr_fexp prec emax _ e' loc_Exact) as [mrs'' e'']. simpl fst in H2.
  destruct (shr_m mrs'') as [|m|m]; [reflexivity | | lia].
  now destruct (e'' <=? emax - prec)%Z.
Qed.

(** A decimal literal denotes a Number, never NaN. *)
Lemma of_decimal_not_NaN (neg : bool) (m : N) (e : Z) :
  isNaN (of_decimal neg m e) = false.
Proof.
  unfold of_decimal. destruct m as [|p]; [reflexivity|].
  destruct (0 <=? e)%Z eqn:L.
  - unfold binary_round.
    destruct (shl_align _ _ _) as [mz ez].
    apply binary_round_aux_not_NaN. lia.
  - apply Z.leb_gt in L. unfold SFdiv_core_binary.
    set (m' := match (0 - 0 - _)%Z with
               | Z0 => Zpos p
               | Zpos _ => Z.shiftl (Zpos p) _
               | Zneg _ => 0%Z
               end).
    assert (Hm' : (0 <= m')%Z).
    { unfold m'. destruct (0 - 0 - _)%Z; try lia. apply Z.shiftl_nonneg. lia. }
    assert (Hpow : (0 < 10 ^ (- e))%Z) by (apply Z.pow_pos_nonneg; lia).
    pose proof (Z.div_pos m' (10 ^ (- e)) Hm' Hpow) as Hq.
    unfold Z.div in Hq.
    destruct (Z.div_eucl m' (10 ^ (- e))) as [q r]. simpl in Hq.
    now apply binary_round_aux_not_NaN.
Qed.

Lemma digits_count (s : string) :
  forall acc acc' n, snd (fst (digits acc n s)) = (n + snd (fst (digits acc' 0 s)))%nat
                     /\ snd (digits acc n s) = snd (digits acc' 0 s).
Proof.
  induction s as [|c s IH]; intros acc acc' n; cbn [digits].
  - cbn [fst snd]. split; [lia | reflexivity].
  - destruct (digit_of c) as [d|]; [|cbn [fst snd]; split; [lia | reflexivity]].
    destruct (IH (10 * acc + d)%N (10 * acc' + d)%N (S n)) as [H1 H2].
    destruct (IH (10 * acc' + d)%N (10 * acc' + d)%N 1%nat) as [H3 H4].
    rewrite H1, H2, H3, H4. split; [lia | reflexivity].
Qed.

(** [parseFloat] reads a Number exactly from the texts that have a numeric
    prefix. *)
Lemma parseFloat_numeric (s : string) :
  isNaN (parseFloat s) = negb (hasNumericPrefix s).
Proof.
  unfold parseFloat, hasNumericPrefix.
  destruct (sign_of (JS.trimStart s)) as [neg t].
  destruct (JS.startsWith t "Infinity"); [reflexivity|]. simpl orb.
  destruct (digits 0 0 t) as [[ip ni] t1].
  assert (D : forall r, snd (fst (digits ip 0 r)) = snd (fst (digits 0 0 r))).
  { intros r. now destruct (digits_count r ip 0%N 0%nat) as [-> _]. }
  destruct ni as [|ni].
  - destruct t1 as [|c r]; [reflexivity|].
    destruct (Ascii.eqb_spec c ".") as [-> | Hc].
    + specialize (D r).
      destruct (digits ip 0 r) as [[m nf] t2].
      destruct (digits 0 0 r) as [[m0 nf0] t3]. simpl in D. subst nf0.
      destruct nf as [|nf]; [reflexivity|]. simpl "+"%nat. cbv iota.
      apply of_decimal_not_NaN.
    + assert (E : match String c r with
                  | String "." r0 => digits ip 0 r0
                  | _ => (ip, 0%nat, String c r)
                  end = (ip, 0%nat, String c r)).
      { destruct c as [[] [] [] [] [] [] [] []]; try reflexivity.
        now contradiction Hc. }
      rewrite E. simpl.
      destruct c as [[] [] [] [] [] [] [] []]; try reflexivity.
      now contradiction Hc.
  - destruct (match t1 with
              | String "." r => digits ip 0 r
              | _ => (ip, 0%nat, t1)
              end) as [[m nf] t2].
    simpl "+"%nat. cbv iota. apply of_decimal_not_NaN.
Qed.

End NumberFacts.

(* ================================================================== *)
(** * Properties of the gateway *)
(* ================================================================== *)

Module GeminiServiceSpec.
Import Number Types Host GeminiService JS JSFacts.

(** [x === y] for a positive finite [y] holds for [y] only. *)
Lemma eqb_finite (x : number) (m : positive) (e : Z) :
  Number.eqb x (S754_finite false m e) = true <-> x = S754_finite false m e.
Proof.
  unfold Number.eqb, SFeqb.
  destruct x as [s|s| |s m' e']; cbn [SFcompare];
    try (split; [discriminate | congruence]).
  - destruct s; split; (discriminate || congruence).
  - destruct s; [split; [discriminate | congruence]|].
    destruct (Z.compare_spec e' e) as [-> | L | L];
      try (split; [discriminate | intros E; injection E; lia]).
    change (Pos.compare_cont Eq m' m) with (m' ?= m)%positive.
    destruct (Pos.compare_spec m' m) as [-> | L | L];
      try (split; [discriminate | intros E; injection E; lia]).
    split; reflexivity.
Qed.

Lemma eqb_n429 (x : number) : Number.eqb x n429 = true <-> x = n429.
Proof. apply eqb_finite. Qed.

Lemma strict_eq_n429 (v : JsValue) :
  strict_eq_number v n429 = true <-> v = JNumber n429.
Proof.
  destruct v; simpl; try (split; [discriminate | congruence]).
  rewrite eqb_n429. split; [now intros -> | congruence].
Qed.


(** The string form of a falsy value contains none of the patterns. *)
Lemma falsy_plain (e : JsValue) (p : string) :
  truthy e = false ->
  In p ["429"; "RESOURCE_EXHAUSTED"; "quota"] ->
  includes (Host.toString e) p = false.
Proof.
  intros T Hp.
  assert (E : In (Host.toString e) ["undefined"; "null"; "false"; "NaN"; "0"; ""]).
  { destruct e as [| |b|n|s|st msg str]; simpl in T |- *; try discriminate; auto.
    - subst b. auto.
    - destruct n; try discriminate; simpl; auto 10.
    - apply truthy_string_false in T. subst s. auto 10. }
  simpl in E, Hp.
  repeat (destruct E as [<- | E]; [repeat (destruct Hp as [<- | Hp]; [reflexivity|]); contradiction|]).
  contradiction.
Qed.

(** ** C1 *)

(** C1.  For every error value [e], [isRateLimitError e] is true exactly
    when [e] has a [status] field equal to the Number 429, or the string
    form of [e] contains ["429"], ["RESOURCE_EXHAUSTED"] or ["quota"] as a
    (case-sensitive) substring; a value with none of these is classified
    as not rate-limited. *)
Theorem isRateLimitError_iff (e : JsValue) :
  isRateLimitError e = true <->
  (get_status e = JNumber n429
   \/ Substring "429" (Host.toString e)
   \/ Substring "RESOURCE_EXHAUSTED" (Host.toString e)
   \/ Substring "quota" (Host.toString e)).
Proof.
  unfold isRateLimitError. destruct (truthy e) eqn:T; cbn [negb].
  - rewrite !orb_true_iff, !includes_iff, strict_eq_n429. tauto.
  - split; [discriminate|].
    intros [E | [E | [E | E]]].
    + destruct e; simpl in T, E; discriminate.
    + apply includes_iff in E.
      rewrite (falsy_plain e "429" T) in E by (simpl; auto). discriminate.
    + apply includes_iff in E.
      rewrite (falsy_plain e "RESOURCE_EXHAUSTED" T) in E by (simpl; auto).
      discriminate.
    + apply includes_iff in E.
      rewrite (falsy_plain e "quota" T) in E by (simpl; auto). discriminate.
Qed.

Section WithHost.
Context `{Host}.

Lemma mergeCategorized_nil (prev : list Transaction) :
  TransactionList.mergeCategorized [] prev = prev.
Proof.
  unfold TransactionList.mergeCategorized. simpl.
  induction prev as [|t prev IH]; simpl; [reflexivity | now rewrite IH].
Qed.

(** The only value [categorizeTransactions] throws is [Error("RATE_LIMIT")]. *)
Lemma categorizeTransactions_throws (ts : list Transaction) (e : JsValue) :
  categorizeTransactions ts = Throws e -> e = new_Error "RATE_LIMIT".
Proof.
  unfold categorizeTransactions, categorize_catch.
  destruct (generateContent (categorizeRequest ts)) as [err | [txt|]].
  - destruct (isRateLimitError err); congruence.
  - destruct (negb (truthy_string txt)); [discriminate|].
    destruct (JSON_parse txt) as [records | err]; [discriminate|].
    destruct (isRateLimitError err); congruence.
  - discriminate.
Qed.

(** ** C2 *)

(** C2 (amended).  When the categorize call fails, or the text of its
    response cannot be parsed, with an error that [isRateLimitError]
    classifies as rate-limited, [categorizeTransactions] fails with the
    error [RATE_LIMIT]; when the call or the parse fails with an error
    that is not so classified, it returns the empty list.  [RATE_LIMIT] is
    the only error it lets through, and on the empty list the
    categorization leaves every transaction of the store as it is. *)
Theorem categorizeTransactions_failure (ts : list Transaction) :
  (forall e,
      generateContent (categorizeRequest ts) = Rejected e ->
      categorizeTransactions ts =
      if isRateLimitError e then Throws (new_Error "RATE_LIMIT") else Returns [])
  /\ (forall jsonText e,
      generateContent (categorizeRequest ts) = Resolved (Some jsonText) ->
      jsonText <> "" ->
      JSON_parse jsonText = ParseThrows e ->
      categorizeTransactions ts =
      if isRateLimitError e then Throws (new_Error "RATE_LIMIT") else Returns [])
  /\ (forall e,
      categorizeTransactions ts = Throws e ->
      e = new_Error "RATE_LIMIT" /\ get_message e = JString "RATE_LIMIT")
  /\ (forall s,
      List.filter TransactionList.isUncategorized (TransactionList.transactions s) = ts ->
      categorizeTransactions ts = Returns [] ->
      TransactionList.transactions (TransactionList.runAutoCategorization s)
      = TransactionList.transactions s).
Proof.
  split; [|split; [|split]].
  - intros e E. unfold categorizeTransactions. now rewrite E.
  - intros jsonText e E Hne P. unfold categorizeTransactions. rewrite E.
    destruct jsonText; [congruence|]. simpl. now rewrite P.
  - intros e E. apply categorizeTransactions_throws in E. now subst e.
  - intros s Hs E. unfold TransactionList.runAutoCategorization.
    rewrite Hs. destruct (List.length ts =? 0)%nat; [reflexivity|].
    rewrite E. simpl. apply mergeCategorized_nil.
Qed.

(** ** C6 *)

(** C6.  [getSpendingInsights] returns the text of the response when it
    is not empty, the default "no insights" string when the response has
    no text or an empty one, raises [RATE_LIMIT] when the call fails with
    an error classified as rate-limited, and returns the fixed apology,
    without raising, when the call fails in any other way. *)
Theorem getSpendingInsights_outcome (ts : list Transaction) :
  (forall t,
      generateContent (insightsRequest ts) = Resolved (Some t) ->
      t <> "" ->
      getSpendingInsights ts = Returns t)
  /\ (forall o,
      generateContent (insightsRequest ts) = Resolved o ->
      o = None \/ o = Some "" ->
      getSpendingInsights ts = Returns NO_INSIGHTS)
  /\ (forall e,
      generateContent (insightsRequest ts) = Rejected e ->
      isRateLimitError e = true ->
      getSpendingInsights ts = Throws (new_Error "RATE_LIMIT"))
  /\ (forall e,
      generateContent (insightsRequest ts) = Rejected e ->
      isRateLimitError e = false ->
      getSpendingInsights ts = Returns INSIGHTS_FAILED).
Proof.
  unfold getSpendingInsights. repeat split.
  - intros t E Hne. rewrite E. destruct t; [congruence | reflexivity].
  - intros o E [-> | ->]; now rewrite E.
  - intros e E C. now rewrite E, C.
  - intros e E C. now rewrite E, C.
Qed.

(** ** C9 *)

(** C9.  The prompt of the insight request is the fixed instructions
    followed by one line for each of the first [min (length ts) 50]
    transactions of the input, in their order, and by nothing else: the
    array handed to the formatting step is that prefix, every line shows
    the date, the description, the amount and the category of its
    transaction, the request (and so the whole operation) is the same as
    on the first 50 transactions alone, and an input of 200 transactions
    has exactly 50 of them in the prompt. *)
Theorem insights_first_50 (ts : list Transaction) :
  let sent := slice 0 (Some 50%Z) ts in
  let first := firstn (Nat.min (List.length ts) 50) ts in
  let line := fun t : Transaction =>
    date t ++ ": " ++ description t ++ " ($" ++ Number.toString (amount t)
           ++ ") - " ++ category t in
  let instructions :=
    nl ++ "    Analyze these recent financial transactions and provide a short, bulleted list (max 3 points) of key insights. "
       ++ nl ++ "    Focus on spending trends, potential savings, or unusual activity."
       ++ nl ++ "    Keep it friendly and concise."
       ++ nl ++ "    "
       ++ nl ++ "    Data:"
       ++ nl ++ "    " in
  sent = first
  /\ List.length sent = Nat.min (List.length ts) 50
  /\ (forall i, (i < Nat.min (List.length ts) 50)%nat ->
                nth_error sent i = nth_error ts i)
  /\ contents (insightsRequest ts)
     = instructions ++ join nl (map line first) ++ nl ++ "  "
  /\ summary ts = join nl (map summaryLine first)
  /\ insightsRequest ts = insightsRequest (firstn 50 ts)
  /\ getSpendingInsights ts = getSpendingInsights (firstn 50 ts)
  /\ (List.length ts = 200%nat ->
      List.length sent = 50%nat /\ List.length (map line first) = 50%nat).
Proof.
  intros sent first line instructions.
  assert (E : sent = firstn 50 ts) by apply (slice_0 50).
  assert (E' : firstn 50 ts = first).
  { unfold first. destruct (Nat.le_ge_cases (List.length ts) 50) as [L|L].
    - rewrite Nat.min_l by assumption. now rewrite !firstn_all2 by lia.
    - now rewrite Nat.min_r by assumption. }
  assert (R : insightsRequest ts = insightsRequest (firstn 50 ts)).
  { unfold insightsRequest, insightsPrompt, summary.
    change (slice 0 (Some 50%Z)) with (@slice Transaction 0 (Some (Z.of_nat 50))).
    now rewrite !slice_0, firstn_firstn, Nat.min_id. }
  assert (S : summary ts = join nl (map line first)).
  { unfold summary. fold sent. rewrite E, E'. reflexivity. }
  split; [congruence|]. split; [rewrite E, length_firstn; lia|].
  split; [|split; [|split; [|split; [|split]]]].
  - intros i Hi. rewrite E, nth_error_firstn.
    destruct (i <? 50)%nat eqn:L; [reflexivity | apply Nat.ltb_ge in L; lia].
  - cbn [insightsRequest contents]. unfold insightsPrompt. rewrite S.
    generalize (join nl (map line first)). intros data.
    unfold instructions. cbn. reflexivity.
  - exact S.
  - exact R.
  - unfold getSpendingInsights. now rewrite R.
  - intros L. split.
    + rewrite E, length_firstn. lia.
    + unfold first. rewrite length_map, length_firstn. lia.
Qed.

End WithHost.

(** ** Scenarios *)

(** The classifier on some thrown values: the match is on the Number
    429 and on substrings, with their case. *)
Example isRateLimitError_examples :
  isRateLimitError Scripted.ApiError429 = true
  /\ isRateLimitError (JObject (JNumber n429) JUndefined "[object Object]") = true
  /\ isRateLimitError (new_Error "RESOURCE_EXHAUSTED") = true
  /\ isRateLimitError (JString "quota exceeded") = true
  /\ isRateLimitError Scripted.unterminated_429 = true
  /\ isRateLimitError Scripted.NetworkError = false
  /\ isRateLimitError (new_Error "Quota exceeded") = false
  /\ isRateLimitError (JObject (JString "429") JUndefined "[object Object]") = false
  /\ isRateLimitError (new_Error "RATE_LIMIT") = false
  /\ isRateLimitError JNull = false
  /\ isRateLimitError JUndefined = false.
Proof. repeat split. Qed.

Lemma isRateLimitError_iff_witness :
  isRateLimitError Scripted.ApiError429 = true
  /\ isRateLimitError Scripted.NetworkError = false.
Proof.
  split.
  - apply (proj2 (isRateLimitError_iff Scripted.ApiError429)). left. reflexivity.
  - destruct (isRateLimitError Scripted.NetworkError) eqn:E; [|reflexivity].
    apply (proj1 (isRateLimitError_iff Scripted.NetworkError)) in E.
    destruct E as [E | [E | [E | E]]];
      [discriminate E | apply JSFacts.includes_iff in E; discriminate E ..].
Defined.

(** C2, as stated, fails: the call succeeds, its text is malformed, and
    the operation does not return the empty list, it raises
    [RATE_LIMIT]. *)
Lemma categorize_malformed_response_raises :
  let h := Scripted.host (Resolved (Some Scripted.truncated)) Scripted.quiet Scripted.engine Scripted.start in
  String.length Scripted.truncated = 429%nat
  /\ generateContent (categorizeRequest App.INITIAL_DATA) = Resolved (Some Scripted.truncated)
  /\ JSON_parse Scripted.truncated = ParseThrows Scripted.unterminated_429
  /\ categorizeTransactions App.INITIAL_DATA = Throws (new_Error "RATE_LIMIT")
  /\ categorizeTransactions App.INITIAL_DATA <> Returns [].
Proof.
  intros h.
  assert (P : JSON_parse Scripted.truncated = ParseThrows Scripted.unterminated_429)
    by (lazy; reflexivity).
  assert (C : categorizeTransactions App.INITIAL_DATA = Throws (new_Error "RATE_LIMIT"))
    by (lazy; reflexivity).
  split; [reflexivity|]. split; [reflexivity|]. split; [exact P|].
  split; [exact C|]. rewrite C. discriminate.
Qed.

Lemma categorizeTransactions_failure_witness :
  (let h := Scripted.host (Rejected Scripted.ApiError429) Scripted.quiet Scripted.engine Scripted.start in
   categorizeTransactions [] = Throws (new_Error "RATE_LIMIT"))
  /\ (let h := Scripted.host (Rejected Scripted.NetworkError) Scripted.quiet Scripted.engine Scripted.start in
      categorizeTransactions [] = Returns [])
  /\ (let h := Scripted.host (Resolved (Some "[")) Scripted.quiet Scripted.engine Scripted.start in
      categorizeTransactions [] = Returns []).
Proof.
  split; [|split]; intros h.
  - exact (proj1 (categorizeTransactions_failure []) Scripted.ApiError429 eq_refl).
  - exact (proj1 (categorizeTransactions_failure []) Scripted.NetworkError eq_refl).
  - refine (proj1 (proj2 (categorizeTransactions_failure [])) "[" _ eq_refl _ eq_refl).
    discriminate.
Defined.

Lemma getSpendingInsights_outcome_witness :
  (let h := Scripted.host (Resolved (Some "- Rent is the largest expense.")) Scripted.quiet Scripted.engine Scripted.start in
   getSpendingInsights [] = Returns "- Rent is the largest expense.")
  /\ (let h := Scripted.host (Resolved (Some "")) Scripted.quiet Scripted.engine Scripted.start in
      getSpendingInsights [] = Returns NO_INSIGHTS)
  /\ (let h := Scripted.host (Rejected Scripted.ApiError429) Scripted.quiet Scripted.engine Scripted.start in
      getSpendingInsights [] = Throws (new_Error "RATE_LIMIT"))
  /\ (let h := Scripted.host (Rejected Scripted.NetworkError) Scripted.quiet Scripted.engine Scripted.start in
      getSpendingInsights [] = Returns INSIGHTS_FAILED).
Proof.
  split; [|split; [|split]]; intros h.
  - refine (proj1 (getSpendingInsights_outcome []) _ eq_refl _). discriminate.
  - refine (proj1 (proj2 (getSpendingInsights_outcome [])) _ eq_refl _). now right.
  - exact (proj1 (proj2 (proj2 (getSpendingInsights_outcome []))) _ eq_refl eq_refl).
  - exact (proj2 (proj2 (proj2 (getSpendingInsights_outcome []))) _ eq_refl eq_refl).
Defined.

Lemma insights_first_50_witness :
  let h := Scripted.host (Resolved None) Scripted.quiet Scripted.engine Scripted.start in
  let ts := repeat (hd (App.tx "" "" "" Number.zero INCOME "" None) App.INITIAL_DATA) 200 in
  List.length (slice 0 (Some 50%Z) ts) = 50%nat
  /\ nth_error (slice 0 (Some 50%Z) ts) 49 = nth_error ts 49
  /\ exists instructions,
      contents (insightsRequest ts)
      = instructions ++ join nl (map summaryLine (firstn 50 ts)) ++ nl ++ "  "
      /\ includes instructions "Analyze these recent financial transactions" = true.
Proof.
  intros h ts. split; [|split].
  - apply (insights_first_50 ts). reflexivity.
  - apply (insights_first_50 ts). vm_compute. lia.
  - eexists. split.
    + exact (proj1 (proj2 (proj2 (proj2 (insights_first_50 ts))))).
    + vm_compute. reflexivity.
Defined.

End GeminiServiceSpec.

(* ================================================================== *)
(** * Properties of the transaction view *)
(* ================================================================== *)

Module TransactionListSpec.
Import Number Types Host GeminiService TransactionList JS JSFacts.

(** [Math.abs] of a Number that is not NaN is at least zero. *)
Lemma abs_nonneg (x : number) :
  isNaN x = false -> Number.leb Number.zero (Number.abs x) = true.
Proof. destruct x as [s|s| |s m e]; simpl; intros E; (reflexivity || discriminate). Qed.

Lemma find_FirstMatch (results : list Categorized) (i : string) (r : Categorized) :
  JS.find (fun r => String.eqb (r_id r) i) results = Some r
  <-> FirstMatch results i r.
Proof.
  unfold JS.find, FirstMatch. induction results as [|x results IH]; simpl.
  - split; [discriminate|]. intros [before [after [E _]]].
    destruct before; discriminate.
  - destruct (String.eqb_spec (r_id x) i) as [Hx | Hx].
    + split.
      * intros E. injection E as <-. exists [], results. simpl. auto.
      * intros [before [after [E [Hr Hb]]]]. destruct before as [|y before].
        -- simpl in E. congruence.
        -- simpl in E. injection E as <- _. exfalso. apply (Hb x); simpl; auto.
    + rewrite IH. split.
      * intros [before [after [E [Hr Hb]]]]. exists (x :: before), after.
        simpl. subst results. repeat split; auto.
        intros y [<- | Hy]; auto.
      * intros [before [after [E [Hr Hb]]]]. destruct before as [|y before].
        -- simpl in E. injection E as -> _. contradiction.
        -- simpl in E. injection E as _ ->. exists before, after.
           repeat split; auto. intros z Hz. apply Hb. simpl. auto.
Qed.

Lemma find_absent (results : list Categorized) (i : string) :
  JS.find (fun r => String.eqb (r_id r) i) results = None
  <-> forall r, In r results -> r_id r <> i.
Proof.
  unfold JS.find. split.
  - intros E r Hr Hi.
    apply (find_none _ _ E) in Hr. simpl in Hr.
    apply String.eqb_neq in Hr. contradiction.
  - intros Hn. destruct (List.find _ results) as [r|] eqn:E; [|reflexivity].
    apply find_some in E. destruct E as [Hr Hi].
    apply String.eqb_eq in Hi. exfalso. exact (Hn r Hr Hi).
Qed.

(** ** C3 *)

(** C3.  The merge of a categorize response into the transaction list
    keeps the length and the order of the list; a transaction whose id is
    the id of no record of the response is unchanged; a transaction whose
    id is matched takes its [category] and [isAnomaly] from the matching
    record (the first one with that id), and its [id], [date],
    [description], [amount] and [type] are unchanged. *)
Theorem mergeCategorized_frame (results : list Categorized)
  (prev : list Transaction) :
  List.length (mergeCategorized results prev) = List.length prev
  /\ forall k t,
      nth_error prev k = Some t ->
      exists t',
        nth_error (mergeCategorized results prev) k = Some t'
        /\ id t' = id t /\ date t' = date t /\ description t' = description t
        /\ amount t' = amount t /\ type t' = type t
        /\ ((forall r, In r results -> r_id r <> id t) -> t' = t)
        /\ (forall r, FirstMatch results (id t) r ->
                      category t' = r_category r
                      /\ isAnomaly t' = Some (r_isAnomaly r))
        /\ ((forall r, In r results -> r_id r <> id t)
            \/ exists r, FirstMatch results (id t) r).
Proof.
  unfold mergeCategorized. split; [apply length_map|].
  intros k t Hk. rewrite nth_error_map, Hk. simpl.
  destruct (JS.find _ results) as [r|] eqn:E.
  - eexists; split; [reflexivity|]. simpl. repeat split.
    + intros Hn. apply find_FirstMatch in E.
      destruct E as [before [after [-> [Hr _]]]].
      exfalso. apply (Hn r); [apply in_elt | exact Hr].
    + apply find_FirstMatch in H. congruence.
    + apply find_FirstMatch in H. congruence.
    + right. exists r. now apply find_FirstMatch.
  - eexists; split; [reflexivity|]. repeat split.
    + apply find_FirstMatch in H. congruence.
    + apply find_FirstMatch in H. congruence.
    + left. now apply find_absent.
Qed.

(** ** C10 *)

(** C10.  A manual category edit keeps the length and the order of the
    list; a transaction with the given id gets the new category and keeps
    all its other fields; every other transaction is unchanged; and when
    no transaction has the given id the list is unchanged. *)
Theorem handleCategoryChange_frame `{Host} (id_ newCategory : string) (s : State) :
  let out := transactions (handleCategoryChange id_ newCategory s) in
  List.length out = List.length (transactions s)
  /\ (forall k t,
        nth_error (transactions s) k = Some t ->
        exists t',
          nth_error out k = Some t'
          /\ id t' = id t /\ date t' = date t
          /\ description t' = description t /\ amount t' = amount t
          /\ type t' = type t /\ isAnomaly t' = isAnomaly t
          /\ (id t = id_ -> category t' = newCategory)
          /\ (id t <> id_ -> t' = t))
  /\ ((forall t, In t (transactions s) -> id t <> id_) -> out = transactions s).
Proof.
  simpl. unfold changeCategory. split; [apply length_map | split].
  - intros k t Hk. rewrite nth_error_map, Hk. simpl.
    destruct (String.eqb_spec (id t) id_) as [E | E];
      (eexists; split; [reflexivity|]); simpl; repeat split; congruence.
  - intros Hn. induction (transactions s) as [|t l IH]; [reflexivity|].
    simpl. rewrite IH by (intros x Hx; apply Hn; simpl; auto).
    destruct (String.eqb_spec (id t) id_) as [E | E]; [|reflexivity].
    exfalso. apply (Hn t); simpl; auto.
Qed.

Section CsvImport.
Context `{Host}.

(** What one line contributes, case by case. *)
Lemma importLine_cases (tick : nat) (line : string) (idx : nat) :
  ((List.length (split "," line) < 3)%nat
   \/ hasNumericPrefix (thirdField line) = false ->
   fst (importLine tick line idx) = [])
  /\ ((3 <= List.length (split "," line))%nat ->
      hasNumericPrefix (thirdField line) = true ->
      exists t,
        fst (importLine tick line idx) = [t]
        /\ amount t = Number.abs (parseFloat (thirdField line))
        /\ type t = (if Number.ltb (parseFloat (thirdField line)) Number.zero
                     then EXPENSE else INCOME)
        /\ category t = "Uncategorized").
Proof.
  unfold importLine, thirdField.
  destruct (3 <=? List.length (split "," line))%nat eqn:L.
  - apply Nat.leb_le in L.
    rewrite NumberFacts.parseFloat_numeric.
    destruct (hasNumericPrefix (nth 2 (split "," line) "")) eqn:N; simpl.
    + split.
      * intros [L' | N']; [lia | congruence].
      * intros _ _. destruct (truthy_string (trim (nth 0 (split "," line) "")));
          (eexists; split; [reflexivity|]); simpl; auto.
    + split; [reflexivity | congruence].
  - apply Nat.leb_gt in L. split; [reflexivity | lia].
Qed.

(** A field that is numeric as a whole has a numeric prefix. *)
Lemma isNumeric_hasNumericPrefix (field : string) :
  isNumeric field = true -> hasNumericPrefix field = true.
Proof.
  unfold isNumeric, hasNumericPrefix.
  destruct (sign_of (JS.trimStart field)) as [neg t].
  destruct (digits 0 0 t) as [[ip ni] t1].
  destruct ni as [|ni]; [|intros _; apply orb_true_r].
  destruct t1 as [|c r]; [discriminate|].
  destruct (Ascii.eqb_spec c ".") as [-> | Hc].
  - destruct (digits 0 0 r) as [[m nf] r'].
    destruct nf; [discriminate | intros _; apply orb_true_r].
  - destruct c as [[] [] [] [] [] [] [] []]; try discriminate.
    now contradiction Hc.
Qed.

(** The entries of a line depend on the line only, not on its index or
    on the clock. *)
Lemma importLine_entries (tick : nat) (line : string) (idx : nat) :
  map entry (fst (importLine tick line idx))
  = map entry (fst (importLine 0 line 0)).
Proof.
  unfold importLine.
  destruct (3 <=? List.length (split "," line))%nat; [|reflexivity].
  destruct (negb (isNaN (parseFloat (nth 2 (split "," line) "")))); [|reflexivity].
  destruct (truthy_string (trim (nth 0 (split "," line) ""))); reflexivity.
Qed.

Lemma importLines_entries (lines : list string) (idx tick : nat) :
  map entry (fst (importLines lines idx tick))
  = flat_map (fun line => map entry (fst (importLine 0 line 0))) lines.
Proof.
  revert idx tick. induction lines as [|line lines IH]; intros idx tick.
  - reflexivity.
  - simpl. destruct (importLine tick line idx) as [pushed tick1] eqn:E1.
    destruct (importLines lines (S idx) tick1) as [more tick2] eqn:E2.
    simpl. rewrite map_app. f_equal.
    + rewrite <- (importLine_entries tick line idx). now rewrite E1.
    + specialize (IH (S idx) tick1). now rewrite E2 in IH.
Qed.

Lemma importLine_nonneg (tick : nat) (line : string) (idx : nat) :
  Forall amount_nonneg (fst (importLine tick line idx)).
Proof.
  unfold importLine.
  destruct (3 <=? List.length (split "," line))%nat; [|constructor].
  destruct (isNaN (parseFloat (nth 2 (split "," line) ""))) eqn:N; [constructor|].
  simpl. destruct (truthy_string (trim (nth 0 (split "," line) "")));
    (constructor; [|constructor]); now apply abs_nonneg.
Qed.

Lemma importLines_nonneg (lines : list string) (idx tick : nat) :
  Forall amount_nonneg (fst (importLines lines idx tick)).
Proof.
  revert idx tick. induction lines as [|line lines IH]; intros idx tick.
  - constructor.
  - simpl. destruct (importLine tick line idx) as [pushed tick1] eqn:E1.
    destruct (importLines lines (S idx) tick1) as [more tick2] eqn:E2.
    simpl. apply Forall_app. split.
    + generalize (importLine_nonneg tick line idx). now rewrite E1.
    + generalize (IH (S idx) tick1). now rewrite E2.
Qed.

Lemma handleFileUpload_transactions (text : string) (s : State) :
  transactions (handleFileUpload (Some text) s)
  = (transactions s ++ fst (parseCsv text (ticks s)))%list.
Proof.
  unfold handleFileUpload.
  now destruct (parseCsv text (ticks s)) as [newTransactions tick].
Qed.

(** ** C4 *)

(** C4 (amended).  The importer appends to the store what it reads from
    the text.  The first line is discarded; every later line contributes,
    in order, nothing when it splits on the comma into fewer than 3
    fields or when its third field does not start, after white space,
    with a number ([parseFloat] reads no Number from it), and otherwise
    exactly one transaction, whose amount is the absolute value of the
    number read from the start of the third field and whose type is
    EXPENSE when that number is negative and INCOME when it is not.  A
    third field that is numeric as a whole starts with a number, so that
    the lines the importer drops are lines the claim drops; a field such
    as ["12abc"], which is not numeric, is read as its prefix. *)
Theorem handleFileUpload_lines (text : string) (s : State) :
  let imported := fst (parseCsv text (ticks s)) in
  let lines := tl (split (ascii_of_nat 10) text) in
  transactions (handleFileUpload (Some text) s)
  = (transactions s ++ imported)%list
  /\ map entry imported
     = flat_map (fun line => map entry (fst (importLine 0 line 0))) lines
  /\ (forall field,
        isNaN (parseFloat field) = false <-> hasNumericPrefix field = true)
  /\ (forall field, isNumeric field = true -> hasNumericPrefix field = true)
  /\ forall tick line idx,
      ((List.length (split "," line) < 3)%nat
       \/ hasNumericPrefix (thirdField line) = false ->
       fst (importLine tick line idx) = [])
      /\ ((3 <= List.length (split "," line))%nat ->
          hasNumericPrefix (thirdField line) = true ->
          exists t,
            fst (importLine tick line idx) = [t]
            /\ amount t = Number.abs (parseFloat (thirdField line))
            /\ (Number.ltb (parseFloat (thirdField line)) Number.zero = true ->
                type t = EXPENSE)
            /\ (Number.ltb (parseFloat (thirdField line)) Number.zero = false ->
                type t = INCOME)).
Proof.
  intros imported lines.
  split; [apply handleFileUpload_transactions | split; [|split; [|split]]].
  - unfold imported, lines, parseCsv. rewrite slice_1. apply importLines_entries.
  - intros field. rewrite NumberFacts.parseFloat_numeric.
    destruct (hasNumericPrefix field); simpl; split; congruence.
  - exact isNumeric_hasNumericPrefix.
  - intros tick line idx.
    destruct (importLine_cases tick line idx) as [Hdrop Hkeep].
    split; [exact Hdrop|]. intros L N.
    destruct (Hkeep L N) as [t [E [Ha [Ht _]]]].
    exists t. repeat split; auto; intros S; now rewrite S in Ht.
Qed.

(** ** C7 *)

(** C7.  The seed data has non-negative amounts, and each operation that
    writes the store (the CSV import, the manual category edit, the
    categorize-merge) keeps every amount non-negative when every amount
    was: an imported amount is an absolute value, with the sign of the
    parsed value kept in the type alone, and the other two operations do
    not write the amount. *)
Theorem amount_nonneg_preserved (s : State) :
  Forall amount_nonneg (transactions s) ->
  (forall file, Forall amount_nonneg (transactions (handleFileUpload file s)))
  /\ (forall id_ newCategory,
        Forall amount_nonneg (transactions (handleCategoryChange id_ newCategory s)))
  /\ Forall amount_nonneg (transactions (runAutoCategorization s))
  /\ Forall amount_nonneg App.INITIAL_DATA
  /\ (forall tick line idx t,
        In t (fst (importLine tick line idx)) ->
        amount t = Number.abs (parseFloat (thirdField line))
        /\ (type t = EXPENSE <->
            Number.ltb (parseFloat (thirdField line)) Number.zero = true)).
Proof.
  intros Inv.
  assert (Hmap : forall f : Transaction -> Transaction,
             (forall t, amount (f t) = amount t) ->
             Forall amount_nonneg (map f (transactions s))).
  { intros f Hf. apply Forall_map. revert Inv. apply Forall_impl.
    intros t Ht. unfold amount_nonneg. now rewrite Hf. }
  split; [|split; [|split; [|split]]].
  - intros [text|]; [|exact Inv].
    rewrite handleFileUpload_transactions. apply Forall_app. split; [exact Inv|].
    apply importLines_nonneg.
  - intros id_ newCategory. simpl. apply Hmap.
    intros t. now destruct (String.eqb (id t) id_).
  - unfold runAutoCategorization.
    destruct (List.length (List.filter isUncategorized (transactions s)) =? 0)%nat;
      [exact Inv|].
    destruct (categorizeTransactions _) as [results | e]; simpl.
    + apply Hmap. intros t. now destruct (JS.find _ results).
    + destruct (_ || _); exact Inv.
  - repeat constructor.
  - intros tick line idx t Ht.
    destruct (importLine_cases tick line idx) as [Hdrop Hkeep].
    destruct (le_lt_dec 3 (List.length (split "," line))) as [L | L];
      [|rewrite Hdrop in Ht by auto; contradiction].
    destruct (hasNumericPrefix (thirdField line)) eqn:N;
      [|rewrite Hdrop in Ht by (right; reflexivity); contradiction].
    destruct (Hkeep L eq_refl) as [t' [E [Ha [Hty _]]]].
    rewrite E in Ht. destruct Ht as [<- | []].
    split; [exact Ha|]. rewrite Hty.
    destruct (Number.ltb _ _); split; congruence.
Qed.

End CsvImport.

(** ** Scenarios *)

(** [parseFloat] reads the longest numeric prefix of a field, whether or
    not the field is numeric as a whole. *)
Example numeric_examples :
  map (fun f => (isNumeric f, negb (isNaN (parseFloat f))))
      [ "-50"; "50"; " 12.5 "; "1e3"; ".5"; "12.5 USD"; "12abc"; "2024-01-05";
        "0x1F"; "1 200.50"; "Infinity"; "abc"; "$50"; ""; "-" ]
  = [ (true, true); (true, true); (true, true); (true, true); (true, true);
      (false, true); (false, true); (false, true);
      (false, true); (false, true); (false, true);
      (false, false); (false, false); (false, false); (false, false) ].
Proof. vm_compute. reflexivity. Qed.

(** C4, as stated, fails: the third field of the line is not numeric,
    and the line contributes a transaction, of amount 12. *)
Lemma handleFileUpload_reads_prefix :
  let h := Scripted.host (Resolved None) Scripted.quiet Scripted.engine Scripted.start in
  let line := "2024-01-05,Deposit,12abc" in
  let text := "Date,Description,Amount" ++ Scripted.nl ++ line in
  thirdField line = "12abc"
  /\ isNumeric (thirdField line) = false
  /\ fst (importLine 0 line 0) <> []
  /\ map (fun t => (description t, entry t))
         (transactions (handleFileUpload (Some text)
                          (setTransactions (fun _ => []) Scripted.listView)))
     = [ ("Deposit", (of_decimal false 12 0, INCOME)) ].
Proof.
  intros h line text.
  split; [reflexivity|]. split; [reflexivity|].
  split; [vm_compute; discriminate | vm_compute; reflexivity].
Qed.

(** The import of [Scripted.statement]: ["-50"] gives EXPENSE/50 and
    ["50"] gives INCOME/50; the line of two fields and the line whose
    amount is not numeric are dropped. *)
Example import_scenario :
  let h := Scripted.host (Resolved None) Scripted.quiet Scripted.engine Scripted.start in
  let s := handleFileUpload (Some Scripted.statement)
                            (setTransactions (fun _ => []) Scripted.listView) in
  map (fun t => (date t, description t, entry t)) (transactions s)
  = [ ("2024-01-02", "Coffee", (of_decimal false 50 0, EXPENSE));
      ("2024-01-03", "Salary", (of_decimal false 50 0, INCOME));
      ("2024-01-15", "Unknown", (of_decimal false 125 (-1), INCOME)) ].
Proof. vm_compute. reflexivity. Qed.

(** The end-to-end categorize scenario: the store holds the coffee, the
    model answers with its category. *)
Example categorize_scenario :
  let h := Scripted.host (Resolved (Some Scripted.categorized)) Scripted.quiet
                         Scripted.engine Scripted.start in
  transactions (runAutoCategorization
                  (setTransactions (fun _ => [Scripted.coffee]) Scripted.listView))
  = [ with_category_isAnomaly Scripted.coffee "Food & Dining" false ].
Proof. vm_compute. reflexivity. Qed.

Lemma mergeCategorized_frame_witness :
  exists t',
    nth_error (mergeCategorized [Scripted.food] [Scripted.coffee]) 0 = Some t'
    /\ category t' = "Food & Dining" /\ isAnomaly t' = Some false
    /\ amount t' = amount Scripted.coffee /\ date t' = "2023-11-12"
    /\ description t' = "Coffee Shop".
Proof.
  destruct (proj2 (mergeCategorized_frame [Scripted.food] [Scripted.coffee])
                  0%nat Scripted.coffee eq_refl)
    as [t' [E [_ [Hd [Hdesc [Ha [_ [_ [Hm _]]]]]]]]].
  destruct (Hm Scripted.food) as [Hc Han].
  { exists [], []. simpl. repeat split. intros x []. }
  exists t'. repeat split; assumption.
Defined.

Lemma handleCategoryChange_frame_witness :
  let h := Scripted.host (Resolved None) Scripted.quiet Scripted.engine Scripted.start in
  (exists t',
      nth_error (transactions (handleCategoryChange "9" "Shopping" Scripted.listView)) 8
      = Some t'
      /\ category t' = "Shopping" /\ description t' = "Unknown Charge 9928")
  /\ transactions (handleCategoryChange "10" "Shopping" Scripted.listView)
     = transactions Scripted.listView.
Proof.
  intros h. split.
  - destruct (proj1 (proj2 (handleCategoryChange_frame "9" "Shopping" Scripted.listView))
                    8%nat (App.tx "9" "2023-11-16" "Unknown Charge 9928"
                                  (of_decimal false 4999 (-2)) EXPENSE
                                  "Uncategorized" None) eq_refl)
      as [t' [E [_ [_ [Hdesc [_ [_ [_ [Hc _]]]]]]]]].
    exists t'. repeat split; [exact E | now apply Hc | exact Hdesc].
  - apply (proj2 (proj2 (handleCategoryChange_frame "10" "Shopping" Scripted.listView))).
    intros t Hin.
    cbv [Scripted.listView transactions App.INITIAL_DATA In] in Hin.
    repeat (destruct Hin as [<- | Hin]; [cbv [App.tx id]; discriminate|]).
    contradiction.
Defined.

Lemma handleFileUpload_lines_witness :
  let h := Scripted.host (Resolved None) Scripted.quiet Scripted.engine Scripted.start in
  (exists t,
      fst (importLine 0 "2024-01-02,Coffee,-50" 0) = [t]
      /\ amount t = of_decimal false 50 0 /\ type t = EXPENSE)
  /\ fst (importLine 0 "2024-01-04,Lunch" 2) = []
  /\ fst (importLine 0 ",Refund,abc" 3) = [].
Proof.
  intros h.
  pose proof (proj2 (proj2 (proj2 (proj2 (handleFileUpload_lines
                                            Scripted.statement
                                            Scripted.listView)))))
    as L.
  split; [|split].
  - destruct (proj2 (L 0%nat "2024-01-02,Coffee,-50" 0%nat)) as [t [E [Ha [He _]]]].
    { vm_compute. lia. }
    { reflexivity. }
    exists t. split; [exact E|]. split; [exact Ha | apply He; reflexivity].
  - apply (proj1 (L 0%nat "2024-01-04,Lunch" 2%nat)). left. vm_compute. lia.
  - apply (proj1 (L 0%nat ",Refund,abc" 3%nat)). right. reflexivity.
Defined.

Lemma amount_nonneg_preserved_witness :
  let h := Scripted.host (Resolved None) Scripted.quiet Scripted.engine Scripted.start in
  Forall amount_nonneg
         (transactions (handleFileUpload (Some Scripted.statement) Scripted.listView)).
Proof.
  intros h. apply (amount_nonneg_preserved Scripted.listView).
  repeat constructor.
Defined.

End TransactionListSpec.

(* ================================================================== *)
(** * Properties of the chat view *)
(* ================================================================== *)

Module ChatBotSpec.
Import Number Types Host GeminiService ChatBot JS JSFacts.

Lemma fill_fill (b t1 t2 : string) (m : ChatMessage) :
  fill b t2 (fill b t1 m) = fill b t2 m.
Proof.
  unfold fill. destruct (String.eqb (msg_id m) b) eqn:E; simpl.
  - now rewrite E.
  - now rewrite E.
Qed.

Lemma map_fill_fill (b t1 t2 : string) (l : list ChatMessage) :
  map (fill b t2) (map (fill b t1) l) = map (fill b t2) l.
Proof. rewrite map_map. apply map_ext. intros m. apply fill_fill. Qed.

Lemma append_assoc (a b c : string) : ((a ++ b) ++ c = a ++ (b ++ c))%string.
Proof. induction a as [|x a IH]; simpl; [reflexivity | now rewrite IH]. Qed.

Lemma append_empty_r (a : string) : (a ++ "")%string = a.
Proof. induction a as [|x a IH]; simpl; [reflexivity | now rewrite IH]. Qed.

Lemma concatenation_app (l1 l2 : list string) :
  concatenation (l1 ++ l2) = (concatenation l1 ++ concatenation l2)%string.
Proof.
  induction l1 as [|x l1 IH]; simpl; [reflexivity|].
  now rewrite IH, append_assoc.
Qed.

(** ** The queue of updaters *)

Lemma final_app (t : string) (q : list Updater) (u : Updater)
  (l : list ChatMessage) :
  final t (q ++ [u]) l = applyUpdater t u (final t q l).
Proof. unfold final. now rewrite fold_left_app. Qed.

Lemma runQueue_app (t : string) (q : list Updater) (u : Updater) (s : State) :
  runQueue t (q ++ [u]) s
  = install (applyUpdater t u (messages (runQueue t q s))) (runQueue t q s).
Proof. unfold runQueue. now rewrite fold_left_app. Qed.

Lemma runQueue_nil (t : string) (s : State) : runQueue t [] s = s.
Proof. reflexivity. Qed.

Lemma final_nil (t : string) (l : list ChatMessage) : final t [] l = l.
Proof. reflexivity. Qed.

(** Running a queue: the list is what the updaters make of it in turn,
    one value is installed for each updater, and nothing is displayed. *)
Lemma runQueue_spec (t : string) (q : list Updater) :
  forall s,
    messages (runQueue t q s) = final t q (messages s)
    /\ List.length (installed (runQueue t q s))
       = (List.length (installed s) + List.length q)%nat
    /\ displayed (runQueue t q s) = displayed s
    /\ inputValue (runQueue t q s) = inputValue s
    /\ isStreaming (runQueue t q s) = isStreaming s
    /\ ticks (runQueue t q s) = ticks s.
Proof.
  induction q as [|u q IH]; intros s.
  - simpl. repeat split. lia.
  - change (runQueue t (u :: q) s)
      with (runQueue t q (install (applyUpdater t u (messages s)) s)).
    change (final t (u :: q) (messages s))
      with (final t q (applyUpdater t u (messages s))).
    destruct (IH (install (applyUpdater t u (messages s)) s))
      as [Hm [Hl [Hd [Hv [Hs Ht]]]]].
    rewrite Hm, Hl, Hd, Hv, Hs, Ht.
    cbn [install messages installed displayed inputValue isStreaming ticks].
    repeat split. rewrite length_app. simpl. lia.
Qed.

Section Streaming.
Context `{Host}.

Lemma streamStep_eq (b : string) (r : Run) (c : option string) :
  streamStep b r c
  = await (setMessages (FillText b) (setFullText (fullText r ++ chunkText c) r)).
Proof.
  unfold streamStep. destruct c; simpl; rewrite ?or_string_empty; reflexivity.
Qed.

(** The placeholder is the last message of the list of a send, with the
    text received so far. *)
Lemma listAfter_last (s : State) (received : list (option string)) :
  exists init,
    listAfter s received
    = (init ++ [with_text (placeholderOf s)
                  (concatenation (map chunkText received))])%list
    /\ List.length init = S (List.length (messages s)).
Proof.
  unfold listAfter. destruct received as [|c received].
  - exists (messages s ++ [userMsgOf s])%list. split; [reflexivity|].
    rewrite length_app. simpl. lia.
  - rewrite map_app. cbn [map]. unfold fill at 2.
    cbn [placeholderOf msg_id]. rewrite String.eqb_refl.
    eexists. split; [reflexivity|].
    rewrite length_map, length_app. simpl. lia.
Qed.

Lemma firstn_within {A : Type} (l : list A) (x : A) (k : nat) :
  (k <= List.length l)%nat -> firstn k (l ++ [x]) = firstn k l.
Proof.
  intros L. rewrite firstn_app.
  replace (k - List.length l)%nat with 0%nat by lia.
  simpl. apply app_nil_r.
Qed.

(** The renders up to the wait after the chunks [received ++ [c]]. *)
Lemma renders_upto (s : State) (received : list (option string))
  (c : option string) :
  map (fun k => listAfter s (firstn k (received ++ [c])))
      (List.filter renders (seq 0 (S (List.length (received ++ [c])))))
  = (map (fun k => listAfter s (firstn k received))
         (List.filter renders (seq 0 (S (List.length received))))
     ++ if renders (S (List.length received))
        then [listAfter s (received ++ [c])] else [])%list.
Proof.
  rewrite length_app. cbn [List.length]. rewrite Nat.add_1_r.
  rewrite (seq_S (S (List.length received))), filter_app, map_app.
  cbn [List.filter Nat.add]. f_equal.
  - apply map_ext_in. intros k Hk. apply filter_In in Hk. destruct Hk as [Hk _].
    apply in_seq in Hk. rewrite firstn_within by lia. reflexivity.
  - destruct (renders (S (List.length received))); [|reflexivity].
    cbn [map]. rewrite firstn_all2; [reflexivity|].
    rewrite length_app. simpl. lia.
Qed.

Lemma nth_error_second_last {A : Type} (l : list A) (x y : A) :
  nth_error ((l ++ [x]) ++ [y])%list (S (List.length l) + 0) = Some y.
Proof.
  replace (S (List.length l) + 0)%nat with (List.length (l ++ [x])%list)
    by (rewrite length_app; simpl; lia).
  rewrite nth_error_app2 by lia. now rewrite Nat.sub_diag.
Qed.

(** The send is as [Suspended] says when the stream opens. *)
Lemma opened_Suspended (s : State) : Suspended s [] (opened s).
Proof.
  unfold Suspended, opened, await.
  cbn [queued waits List.length seq List.filter].
  destruct (renders 0).
  - cbn -[nth_error]. repeat split; try reflexivity.
    + rewrite length_app, length_app. simpl. lia.
    + apply nth_error_second_last.
  - cbn -[nth_error]. repeat split; try reflexivity.
    + lia.
    + apply nth_error_second_last.
    + now rewrite app_nil_r.
Qed.

(** One round of the loop keeps it so. *)
Lemma streamStep_Suspended (s : State) (received : list (option string))
  (r : Run) (c : option string) :
  Suspended s received r ->
  Suspended s (received ++ [c]) (streamStep (botMsgIdOf s) r c).
Proof.
  intros [Hf [Hw [H1 [H2 [H3 [H4 [H5 [Hv [Hs Ht]]]]]]]]].
  rewrite streamStep_eq.
  set (b := botMsgIdOf s) in *.
  set (open := ((messages s ++ [userMsgOf s]) ++ [placeholderOf s])%list) in *.
  set (T' := fullText r ++ chunkText c).
  assert (ET : concatenation (map chunkText (received ++ [c])) = T').
  { rewrite map_app, concatenation_app. simpl.
    now rewrite append_empty_r, <- Hf. }
  assert (EL : listAfter s (received ++ [c]) = map (fill b T') open).
  { unfold listAfter. rewrite ET. now destruct received. }
  destruct (runQueue_spec T' (queue r) (view r)) as [Qm [Ql [Qd [Qv [Qs Qt]]]]].
  set (s1 := runQueue T' (queue r) (view r)) in *.
  assert (D : runQueue T' (queue r ++ [FillText b]) (view r)
              = install (map (fill b T') open) s1).
  { rewrite runQueue_app. fold s1. cbn [applyUpdater].
    now rewrite Qm, H1. }
  assert (N : nth_error (installed (install (map (fill b T') open) s1))
                        (S (List.length (installed s))
                         + List.length (received ++ [c]))
              = Some (map (fill b T') open)).
  { cbn [install installed]. rewrite length_app. cbn [List.length].
    rewrite nth_error_app2 by lia.
    now replace (S (List.length (installed s)) + (List.length received + 1)
                 - List.length (installed s1))%nat with 0%nat by lia. }
  unfold Suspended. fold b open. rewrite renders_upto.
  change (setMessages (FillText b) (setFullText T' r))
    with {| fullText := T'; queue := (queue r ++ [FillText b])%list;
            waits := waits r; view := view r |}.
  unfold await. cbn [fullText queue waits view]. rewrite Hw.
  assert (W : S (S (List.length received))
              = S (List.length (received ++ [c]))).
  { rewrite length_app. simpl. lia. }
  assert (I3 : (List.length (installed (install (map (fill b T') open) s1))
                = List.length (installed s) + 2
                  + List.length (received ++ [c]))%nat).
  { cbn [install installed]. rewrite !length_app. simpl. lia. }
  destruct (renders (S (List.length received))).
  - unfold render, drain. cbn [fullText queue waits view].
    rewrite !runQueue_nil, D.
    cbn [show messages installed displayed inputValue isStreaming ticks
         List.length].
    split; [now rewrite ET|]. split; [exact W|].
    split; [intros t; rewrite final_nil; apply map_fill_fill|].
    split; [now rewrite EL|]. split; [rewrite I3; lia|].
    split; [exact N|].
    split; [|cbn [install inputValue isStreaming ticks]; repeat split; congruence].
    cbn [install displayed messages]. rewrite Qd, H5, EL.
    now rewrite <- app_assoc.
  - unfold drain. cbn [fullText queue waits view]. rewrite D.
    split; [now rewrite ET|]. split; [exact W|].
    split; [intros t; rewrite final_app; cbn [applyUpdater];
            now rewrite map_fill_fill|].
    split; [now rewrite EL|].
    split; [rewrite !length_app; simpl; lia|].
    split; [exact N|].
    split; [|repeat split; assumption].
    rewrite H5. now rewrite app_nil_r.
Qed.

Lemma fold_Suspended (s : State) (rest : list (option string)) :
  forall received r,
    Suspended s received r ->
    Suspended s (received ++ rest)
              (fold_left (streamStep (botMsgIdOf s)) rest r).
Proof.
  induction rest as [|c rest IH]; intros received r Inv.
  - now rewrite app_nil_r.
  - cbn [fold_left].
    replace (received ++ c :: rest)%list with ((received ++ [c]) ++ rest)%list
      by now rewrite <- app_assoc.
    apply IH. now apply streamStep_Suspended.
Qed.

Lemma streamed_Suspended (s : State) (chunks : list (option string)) :
  Suspended s chunks (streamed s chunks).
Proof. apply (fold_Suspended s chunks [] (opened s)), opened_Suspended. Qed.

(** What React holds once it has run what the stream queued: the state
    after all of [chunks]. *)
Lemma streamed_state (s : State) (chunks : list (option string)) :
  let s1 := drain (streamed s chunks) in
  messages s1 = listAfter s chunks
  /\ List.length (installed s1)
     = (List.length (installed s) + 2 + List.length chunks)%nat
  /\ nth_error (installed s1) (S (List.length (installed s)) + List.length chunks)
     = Some (messages s1)
  /\ displayed s1
     = (displayed s
        ++ map (fun k => listAfter s (firstn k chunks))
               (List.filter renders (seq 0 (S (List.length chunks)))))%list
  /\ inputValue s1 = ""
  /\ isStreaming s1 = true
  /\ ticks s1 = (4 + ticks s)%nat.
Proof.
  cbv zeta.
  destruct (streamed_Suspended s chunks)
    as [Hf [Hw [H1 [H2 [H3 [H4 [H5 [Hv [Hs Ht]]]]]]]]].
  destruct (runQueue_spec (fullText (streamed s chunks))
                          (queue (streamed s chunks))
                          (view (streamed s chunks)))
    as [Qm [Ql [Qd [Qv [Qs Qt]]]]].
  fold (drain (streamed s chunks)) in Qm, Ql, Qd, Qv, Qs, Qt.
  split; [exact H2|]. split; [now rewrite Ql|]. split; [exact H4|].
  split; [now rewrite Qd|]. repeat split; congruence.
Qed.

Lemma handleSend_sends (s : State) :
  truthy_string (trim (inputValue s)) = true ->
  isStreaming s = false ->
  handleSend s
  = finally_
      match sendMessageStream (inputValue s) with
      | StreamRejected error => catchError error (opened s)
      | Chunks chunks failure =>
          match failure with
          | None => Returns (drain (streamed s chunks))
          | Some error => catchError error (streamed s chunks)
          end
      end.
Proof.
  intros T B. unfold handleSend. rewrite T, B. reflexivity.
Qed.

Lemma nth_error_last_of {A : Type} (l : list A) (x : A) :
  nth_error (l ++ [x])%list (List.length l) = Some x.
Proof. rewrite nth_error_app2 by lia. now rewrite Nat.sub_diag. Qed.

Lemma fill_placeholder (s : State) (t : string) :
  fill (botMsgIdOf s) t (placeholderOf s) = with_text (placeholderOf s) t.
Proof. unfold fill. simpl msg_id. now rewrite String.eqb_refl. Qed.

(** The message at the place of the placeholder, in the list of a send
    after the chunks [received]: it has the id of the placeholder, it is
    a message of the model, and its text is the concatenation of the
    texts received. *)
Lemma listAfter_shows (s : State) (received : list (option string)) :
  exists m,
    nth_error (listAfter s received) (S (List.length (messages s))) = Some m
    /\ msg_id m = botMsgIdOf s
    /\ role m = model
    /\ text m = concatenation (map chunkText received).
Proof.
  destruct (listAfter_last s received) as [init [E L]].
  exists (with_text (placeholderOf s) (concatenation (map chunkText received))).
  split; [|repeat split].
  rewrite E, <- L. apply nth_error_last_of.
Qed.

(** ** C5 *)

(** C5 (amended).  When the chat stream of a send yields the chunks
    [chunks] and completes, the handler asks for one update of the
    message list per chunk, and the list that is displayed at the end
    has, at the place of the placeholder, the message of the model whose
    text is the left-to-right concatenation of all the chunks.  In
    between, React renders at the waits the host paces (wait [k] follows
    the [k]-th chunk, wait 0 precedes the first), and each of these
    renders shows, at that place, the concatenation of the chunks
    received so far: when React renders after the [k]-th chunk, the text
    of the first [k] chunks is displayed; chunks that arrive between
    two renders are displayed together. *)
Theorem handleSend_streams (s : State) (chunks : list (option string)) :
  truthy_string (trim (inputValue s)) = true ->
  isStreaming s = false ->
  sendMessageStream (inputValue s) = Chunks chunks None ->
  let n := List.length chunks in
  let received := fun k => concatenation (map chunkText (firstn k chunks)) in
  let shows := fun (l : list ChatMessage) (t : string) =>
    exists m,
      nth_error l (S (List.length (messages s))) = Some m
      /\ msg_id m = botMsgIdOf s /\ role m = model /\ text m = t in
  exists s' during,
    handleSend s = Returns s'
    /\ isStreaming s' = false
    /\ shows (messages s') (received n)
    /\ displayed s' = (displayed s ++ during ++ [messages s'])%list
    /\ List.length (installed s') = (List.length (installed s) + 2 + n)%nat
    /\ Forall2 (fun l k => shows l (received k))
               during (List.filter renders (seq 0 (S n)))
    /\ (forall k, (k <= n)%nat -> renders k = true ->
                  exists l, In l during /\ shows l (received k)).
Proof.
  intros T B E n received shows.
  rewrite (handleSend_sends s T B), E. cbn [finally_].
  destruct (streamed_state s chunks) as [Hm [Hl [_ [Hd _]]]].
  assert (S_ : forall k, shows (listAfter s (firstn k chunks)) (received k)).
  { intros k. apply listAfter_shows. }
  exists (show (setIsStreaming false (drain (streamed s chunks)))).
  exists (map (fun k => listAfter s (firstn k chunks))
              (List.filter renders (seq 0 (S n)))).
  cbn [show setIsStreaming messages isStreaming installed displayed].
  split; [reflexivity|]. split; [reflexivity|].
  split; [|split; [|split; [exact Hl|split]]].
  - rewrite Hm. unfold received, n. rewrite <- (firstn_all chunks) at 1.
    apply S_.
  - rewrite Hd. now rewrite <- app_assoc.
  - induction (List.filter renders (seq 0 (S n))) as [|k ks IH];
      cbn [map]; constructor; [apply S_ | exact IH].
  - intros k L R. exists (listAfter s (firstn k chunks)). split; [|apply S_].
    apply in_map_iff. exists k. split; [reflexivity|].
    apply filter_In. split; [|exact R]. apply in_seq. lia.
Qed.

(** The updater of the [catch] block on a list that has a last message. *)
Lemma replaceOrAppend_last (errorMessage : ChatMessage)
  (init : list ChatMessage) (lastMsg : ChatMessage) :
  replaceOrAppend errorMessage (init ++ [lastMsg])%list
  = Some (if Role_eqb (role lastMsg) model && String.eqb (text lastMsg) ""
          then (init ++ [errorMessage])%list
          else (init ++ [lastMsg; errorMessage])%list).
Proof.
  unfold replaceOrAppend. rewrite index_last, slice_init.
  destruct (Role_eqb (role lastMsg) model && String.eqb (text lastMsg) "");
    [reflexivity|].
  now rewrite <- app_assoc.
Qed.

(** ** C8 *)

(** C8.  The updater of the error path replaces the last message by the
    error message when that last message is a model message with empty
    text, and appends the error message otherwise.  When a send fails,
    at the call or after some chunks, the send still completes, the
    error message is a model message whose text is the rate-limit text
    when [isRateLimitError] classifies the error as rate-limited and the
    generic text otherwise, and the last message at that time is the
    placeholder with the text streamed so far: it is replaced when that
    text is empty, and the error message comes after it otherwise. *)
Theorem handleSend_failure :
  (forall errorMessage init lastMsg,
      (role lastMsg = model /\ text lastMsg = "" ->
       replaceOrAppend errorMessage (init ++ [lastMsg])%list
       = Some (init ++ [errorMessage])%list)
      /\ (~ (role lastMsg = model /\ text lastMsg = "") ->
          replaceOrAppend errorMessage (init ++ [lastMsg])%list
          = Some (init ++ [lastMsg; errorMessage])%list))
  /\ forall (s : State) (e : JsValue) (chunks : list (option string)),
      truthy_string (trim (inputValue s)) = true ->
      isStreaming s = false ->
      (sendMessageStream (inputValue s) = StreamRejected e /\ chunks = [])
      \/ sendMessageStream (inputValue s) = Chunks chunks (Some e) ->
      exists s' init lastMsg errorMessage,
        handleSend s = Returns s'
        /\ isStreaming s' = false
        /\ role errorMessage = model
        /\ text errorMessage
           = (if isRateLimitError e then RATE_LIMIT_ERROR else GENERIC_ERROR)
        /\ nth_error (installed s') (S (List.length (installed s)) + List.length chunks)
           = Some (init ++ [lastMsg])%list
        /\ lastMsg = with_text (placeholderOf s)
                       (concatenation (map chunkText chunks))
        /\ (text lastMsg = "" -> messages s' = (init ++ [errorMessage])%list)
        /\ (text lastMsg <> "" ->
            messages s' = (init ++ [lastMsg; errorMessage])%list).
Proof.
  split.
  - intros errorMessage init lastMsg. rewrite replaceOrAppend_last. split.
    + intros [-> ->]. reflexivity.
    + intros N. destruct (role lastMsg) eqn:R; simpl; [reflexivity|].
      destruct (String.eqb_spec (text lastMsg) ""); [|reflexivity].
      exfalso. apply N. auto.
  - intros s e chunks T B E.
    assert (E' : handleSend s = finally_ (catchError e (streamed s chunks))).
    { rewrite (handleSend_sends s T B).
      destruct E as [[-> ->] | ->]; reflexivity. }
    destruct (streamed_state s chunks) as [Hm [Hl [Hn _]]].
    destruct (listAfter_last s chunks) as [init [Hi _]].
    rewrite Hi in Hm.
    set (s1 := drain (streamed s chunks)) in *.
    set (lastMsg := with_text (placeholderOf s)
                      (concatenation (map chunkText chunks))) in *.
    set (errorMessage :=
           {| msg_id := N_toString (Date_now (ticks s1));
              role := model; text := errorTextOf e;
              timestamp := Date_now (S (ticks s1)) |}).
    assert (C : catchError e (streamed s chunks)
                = Returns (install
                             (if String.eqb (text lastMsg) ""
                              then (init ++ [errorMessage])%list
                              else (init ++ [lastMsg; errorMessage])%list)
                             (setTicks (S (S (ticks s1))) s1))).
    { unfold catchError. fold s1. fold errorMessage.
      rewrite Hm, replaceOrAppend_last. reflexivity. }
    assert (R1 : role errorMessage = model) by reflexivity.
    assert (R2 : text errorMessage
                 = if isRateLimitError e then RATE_LIMIT_ERROR else GENERIC_ERROR)
      by reflexivity.
    clearbody lastMsg errorMessage.
    rewrite C in E'. cbn [finally_] in E'.
    eexists. exists init, lastMsg, errorMessage.
    split; [exact E'|].
    cbn [show setIsStreaming install setTicks installed messages isStreaming].
    split; [reflexivity|]. split; [exact R1|]. split; [exact R2|].
    split; [|split; [reflexivity|split]].
    + rewrite nth_error_app1 by (rewrite Hl; lia). now rewrite Hn, Hm.
    + intros Z. now rewrite Z.
    + intros Z. apply String.eqb_neq in Z. now rewrite Z.
Qed.

End Streaming.

(** ** Scenarios *)

(** The end-to-end chat scenario with the chunks arriving apart: the
    placeholder, the third message of the list, shows the empty text,
    then ["Hel"], ["Hello, "] and ["Hello, how can I help?"]. *)
Example chat_scenario :
  let h := Scripted.host (Resolved None) (Chunks Scripted.greeting None)
                         Scripted.engine Scripted.start in
  option_map (fun s' => (map (shownAt 2) (displayed s'),
                         shownAt 2 (messages s'),
                         List.length (messages s')))
             (returned (handleSend Scripted.chatView))
  = Some ([ Some ""; Some "Hel"; Some "Hello, ";
            Some "Hello, how can I help?"; Some "Hello, how can I help?" ],
          Some "Hello, how can I help?",
          3%nat).
Proof. vm_compute. reflexivity. Qed.

(** A stream that fails after a chunk leaves the partial answer and adds
    the error message; one that fails before any text replaces the
    placeholder. *)
Example chat_failure_scenario :
  (let h := Scripted.host (Resolved None)
                          (Chunks [Some "Hel"] (Some Scripted.NetworkError))
                          Scripted.engine Scripted.start in
   option_map (fun s' => map text (tl (messages s')))
              (returned (handleSend Scripted.chatView))
   = Some [ "How do I start a budget?"; "Hel"; GENERIC_ERROR ])
  /\ (let h := Scripted.host (Resolved None)
                             (Chunks [Some ""; None] (Some Scripted.ApiError429))
                             Scripted.engine Scripted.start in
      option_map (fun s' => map text (tl (messages s')))
                 (returned (handleSend Scripted.chatView))
      = Some [ "How do I start a budget?"; RATE_LIMIT_ERROR ]).
Proof. split; vm_compute; reflexivity. Qed.

(** C5, as stated, fails: the three chunks arrive together, after the
    render that shows the empty placeholder, and the next render shows
    the whole text; no render shows ["Hel"] or ["Hello, "]. *)
Lemma handleSend_batches_chunks :
  let h := Scripted.burst (Resolved None) (Chunks Scripted.greeting None)
                          Scripted.engine Scripted.start in
  sendMessageStream (inputValue Scripted.chatView)
  = Chunks [ Some "Hel"; Some "lo, "; Some "how can I help?" ] None
  /\ option_map (fun s' => map (shownAt 2) (displayed s'))
                (returned (handleSend Scripted.chatView))
     = Some [ Some ""; Some "Hello, how can I help?" ]
  /\ forall s',
      handleSend Scripted.chatView = Returns s' ->
      ~ In (Some "Hel") (map (shownAt 2) (displayed s'))
      /\ ~ In (Some "Hello, ") (map (shownAt 2) (displayed s')).
Proof.
  intros h.
  assert (D : option_map (fun s' => map (shownAt 2) (displayed s'))
                         (returned (handleSend Scripted.chatView))
              = Some [ Some ""; Some "Hello, how can I help?" ])
    by (vm_compute; reflexivity).
  split; [reflexivity|]. split; [exact D|].
  intros s' E. rewrite E in D. cbn [returned option_map] in D.
  injection D as ->.
  split; intros [F | [F | []]]; discriminate F.
Qed.

Lemma handleSend_streams_witness :
  let h := Scripted.host (Resolved None) (Chunks Scripted.greeting None)
                         Scripted.engine Scripted.start in
  exists s' during,
    handleSend Scripted.chatView = Returns s'
    /\ (exists m, nth_error (messages s') 2 = Some m
                  /\ text m = "Hello, how can I help?")
    /\ (exists l m, In l during /\ nth_error l 2 = Some m
                    /\ text m = "Hello, ")
    /\ displayed s' = (during ++ [messages s'])%list.
Proof.
  intros h.
  destruct (handleSend_streams (H := h) Scripted.chatView Scripted.greeting
                               eq_refl eq_refl eq_refl)
    as [s' [during [E [_ [[m [Hm [_ [_ Ht]]]] [Hd [_ [_ Hk]]]]]]]].
  destruct (Hk 2%nat) as [l [Hin [m2 [Hm2 [_ [_ Ht2]]]]]];
    [simpl; lia | reflexivity |].
  exists s', during. split; [exact E|].
  split; [exists m; split; [exact Hm | exact Ht]|].
  split; [exists l, m2; repeat split; assumption | exact Hd].
Defined.

Lemma handleSend_failure_witness :
  let h := Scripted.host (Resolved None) (StreamRejected Scripted.ApiError429)
                         Scripted.engine Scripted.start in
  exists s' init errorMessage,
    handleSend Scripted.chatView = Returns s'
    /\ messages s' = (init ++ [errorMessage])%list
    /\ role errorMessage = model
    /\ text errorMessage = RATE_LIMIT_ERROR.
Proof.
  intros h.
  destruct (proj2 (handleSend_failure (H := h))
                  Scripted.chatView Scripted.ApiError429 []
                  eq_refl eq_refl (or_introl (conj eq_refl eq_refl)))
    as [s' [init [lastMsg [errorMessage [E [_ [Hr [Ht [_ [Hl [Hrep _]]]]]]]]]]].
  exists s', init, errorMessage.
  split; [exact E|]. split; [|split; [exact Hr | exact Ht]].
  apply Hrep. rewrite Hl. reflexivity.
Defined.

End ChatBotSpec.

(* ================================================================== *)
(** * Properties of the dashboard *)
(* ================================================================== *)

Module DashboardSpec.
Import Number Types Host GeminiService Dashboard.

(** ** Sums of amounts *)

Lemma binary_round_aux_plus (mx ex : Z) (lx : location) :
  (0 <= mx)%Z -> plus (binary_round_aux prec emax false mx ex lx).
Proof.
  intros Hm.
  pose proof (NumberFacts.binary_round_aux_not_NaN false mx ex lx Hm) as N.
  unfold binary_round_aux in *.
  destruct (shr_fexp prec emax mx ex lx) as [mrs' e'].
  destruct (shr_fexp prec emax _ e' loc_Exact) as [mrs'' e''].
  destruct (shr_m mrs'') as [|m|m]; [exact I | | discriminate N].
  destruct (e'' <=? emax - prec)%Z; exact I.
Qed.

(** The sum of a Number that is zero or more and an amount that is zero
    or more is zero or more. *)
Lemma add_plus (x y : number) :
  plus x -> Number.leb Number.zero y = true -> plus (add x y).
Proof.
  intros Hx Hy.
  destruct x as [[|]|[|]| |[|] mx ex]; try contradiction;
    destruct y as [[|]|[|]| |[|] my ey]; try discriminate; try exact I.
  unfold add, SFadd, binary_normalize. cbn [cond_Zopp Z.add].
  unfold binary_round.
  destruct (shl_align _ _ _) as [mz ez].
  apply binary_round_aux_plus. lia.
Qed.

Lemma plus_nonneg (x : number) :
  plus x -> Number.leb Number.zero x = true /\ isNaN x = false.
Proof. destruct x as [[|]|[|]| |[|] m e]; simpl; intros []; auto. Qed.

Lemma fold_add_plus (ts : list Transaction) :
  Forall TransactionList.amount_nonneg ts ->
  forall acc, plus acc ->
    plus (fold_left (fun acc t => add acc (amount t)) ts acc).
Proof.
  induction 1 as [|t ts Ht _ IH]; intros acc Hacc; simpl; [exact Hacc|].
  apply IH. now apply add_plus.
Qed.

Lemma Forall_filter {A : Type} (P : A -> Prop) (f : A -> bool) (l : list A) :
  Forall P l -> Forall P (List.filter f l).
Proof.
  induction 1 as [|x l Hx _ IH]; simpl; [constructor|].
  destruct (f x); [constructor|]; assumption.
Qed.

(** When every amount of the store is zero or more, the income and
    expense totals of the dashboard are Numbers that are zero or more:
    they are never NaN and never negative. *)
Theorem summary_nonneg (ts : list Transaction) :
  Forall TransactionList.amount_nonneg ts ->
  Number.leb Number.zero (income (summary ts)) = true
  /\ isNaN (income (summary ts)) = false
  /\ Number.leb Number.zero (expense (summary ts)) = true
  /\ isNaN (expense (summary ts)) = false.
Proof.
  intros Inv.
  assert (P : forall f, plus (sumAmounts (List.filter f ts))).
  { intros f. apply fold_add_plus; [now apply Forall_filter | exact I]. }
  destruct (plus_nonneg _ (P isIncome)) as [H1 H2].
  destruct (plus_nonneg _ (P isExpense)) as [H3 H4].
  simpl. auto.
Qed.

(** The summary reads the amounts and the types only. *)
Lemma sumAmounts_entries (p : TransactionType -> bool) (l1 : list Transaction) :
  forall l2 acc,
    map TransactionList.entry l1 = map TransactionList.entry l2 ->
    fold_left (fun acc t => add acc (amount t))
              (List.filter (fun t => p (type t)) l1) acc
    = fold_left (fun acc t => add acc (amount t))
                (List.filter (fun t => p (type t)) l2) acc.
Proof.
  induction l1 as [|t1 l1 IH]; intros [|t2 l2] acc E; try discriminate;
    [reflexivity|].
  simpl in E. injection E as Ea Et E. simpl. rewrite Et.
  destruct (p (type t2)); simpl; [rewrite Ea|]; now apply IH.
Qed.

Lemma summary_entries (l1 l2 : list Transaction) :
  map TransactionList.entry l1 = map TransactionList.entry l2 ->
  summary l1 = summary l2.
Proof.
  intros E.
  assert (Hi : sumAmounts (List.filter isIncome l1)
               = sumAmounts (List.filter isIncome l2))
    by exact (sumAmounts_entries
                (fun ty => match ty with INCOME => true | EXPENSE => false end)
                l1 l2 Number.zero E).
  assert (He : sumAmounts (List.filter isExpense l1)
               = sumAmounts (List.filter isExpense l2))
    by exact (sumAmounts_entries
                (fun ty => match ty with INCOME => false | EXPENSE => true end)
                l1 l2 Number.zero E).
  unfold summary. now rewrite Hi, He.
Qed.

Lemma map_entry_keep (f : Transaction -> Transaction) (l : list Transaction) :
  (forall t, TransactionList.entry (f t) = TransactionList.entry t) ->
  map TransactionList.entry (map f l) = map TransactionList.entry l.
Proof. intros Hf. rewrite map_map. apply map_ext. exact Hf. Qed.

(** Neither a manual category edit nor an automatic categorization,
    whatever the model answers, changes the totals of the dashboard. *)
Theorem summary_unchanged_by_categories `{Host} (s : TransactionList.State) :
  (forall id_ newCategory,
      summary (TransactionList.transactions
                 (TransactionList.handleCategoryChange id_ newCategory s))
      = summary (TransactionList.transactions s))
  /\ summary (TransactionList.transactions (TransactionList.runAutoCategorization s))
     = summary (TransactionList.transactions s).
Proof.
  split.
  - intros id_ newCategory. apply summary_entries. simpl.
    apply map_entry_keep. intros t. now destruct (String.eqb (id t) id_).
  - apply summary_entries. unfold TransactionList.runAutoCategorization.
    destruct (List.length _ =? 0)%nat; [reflexivity|].
    destruct (categorizeTransactions _) as [results | e]; simpl.
    + apply map_entry_keep. intros t. now destruct (JS.find _ results).
    + now destruct (_ || _).
Qed.

(** ** The category map *)

Lemma Map_set_keys (m : list (string * number)) (k : string) (v : number) :
  forall c, In c (map fst (Map_set m k v)) <-> c = k \/ In c (map fst m).
Proof.
  induction m as [|[k' v'] m IH]; intros c; simpl.
  - intuition.
  - destruct (String.eqb_spec k' k) as [-> | Hk]; simpl.
    + intuition.
    + rewrite IH. intuition.
Qed.

Lemma Map_set_NoDup (m : list (string * number)) (k : string) (v : number) :
  NoDup (map fst m) -> NoDup (map fst (Map_set m k v)).
Proof.
  induction m as [|[k' v'] m IH]; simpl; intros N.
  - constructor; [intros [] | constructor].
  - inversion N as [|? ? Hn N']; subst.
    destruct (String.eqb_spec k' k) as [-> | Hk]; simpl.
    + constructor; assumption.
    + constructor; [|auto]. rewrite Map_set_keys. intros [-> | Hin]; auto.
Qed.

Lemma Map_get_set (m : list (string * number)) (k : string) (v : number) :
  forall c, Map_get (Map_set m k v) c
            = if String.eqb k c then Some v else Map_get m c.
Proof.
  induction m as [|[k' v'] m IH]; intros c; simpl.
  - reflexivity.
  - destruct (String.eqb_spec k' k) as [-> | Hk]; simpl.
    + now destruct (String.eqb k c).
    + rewrite IH. destruct (String.eqb_spec k' c) as [-> | Hc]; [|reflexivity].
      destruct (String.eqb_spec k c) as [-> | _]; [contradiction | reflexivity].
Qed.

Lemma fold_step (es : list Transaction) :
  forall m,
    NoDup (map fst m) ->
    NoDup (map fst (fold_left step es m))
    /\ (forall c, In c (map fst (fold_left step es m))
                  <-> In c (map fst m) \/ exists t, In t es /\ category t = c)
    /\ (forall c, Map_get (fold_left step es m) c
                  = runningTotal c es (Map_get m c)).
Proof.
  induction es as [|t es IH]; intros m N; simpl.
  - split; [exact N|]. split; [|reflexivity].
    intros c. split; [auto | intros [Hc | [t [[] _]]]; exact Hc].
  - destruct (IH (step m t) (Map_set_NoDup _ _ _ N)) as [N' [K V]].
    split; [exact N'|]. split.
    + intros c. rewrite K. unfold step at 1. rewrite Map_set_keys. split.
      * intros [[-> | Hc] | [t' [Ht' Hc]]]; eauto.
      * intros [Hc | [t' [[<- | Ht'] Hc]]]; eauto.
    + intros c. rewrite V. unfold step at 1. rewrite Map_get_set.
      unfold runningTotal. simpl. unfold getOrZero, orZero.
      destruct (String.eqb_spec (category t) c) as [-> | Hc]; reflexivity.
Qed.

Lemma filter_isExpense (t : Transaction) (ts : list Transaction) :
  In t (List.filter isExpense ts) <-> In t ts /\ type t = EXPENSE.
Proof.
  rewrite filter_In. unfold isExpense.
  destruct (type t); intuition congruence.
Qed.

(** The pie chart has exactly one entry for each category in which the
    list has an expense, and none for a category that has income only. *)
Theorem catMap_keys (ts : list Transaction) :
  NoDup (map fst (catMap ts))
  /\ forall c, In c (map fst (catMap ts))
               <-> exists t, In t ts /\ type t = EXPENSE /\ category t = c.
Proof.
  destruct (fold_step (List.filter isExpense ts) [] (NoDup_nil _)) as [N [K _]].
  split; [exact N|]. intros c. unfold catMap. fold step. rewrite K. simpl. split.
  - intros [[] | [t [Ht Hc]]]. apply filter_isExpense in Ht. exists t. tauto.
  - intros [t [Ht [He Hc]]]. right. exists t.
    split; [apply filter_isExpense; tauto | exact Hc].
Qed.

Lemma orZero_plus (v : number) : plus v -> orZero (Some v) = v.
Proof. destruct v as [[|]|[|]| |[|] m e]; simpl; intros []; reflexivity. Qed.

Lemma runningTotal_sum (c : string) (es : list Transaction) :
  Forall TransactionList.amount_nonneg es ->
  forall o, plus (orZero o) -> (forall v, o = Some v -> plus v) ->
    runningTotal c es o
    = match List.filter (fun t => String.eqb (category t) c) es with
      | [] => o
      | l => Some (fold_left (fun acc t => add acc (amount t)) l (orZero o))
      end.
Proof.
  induction 1 as [|t es Ht _ IH]; intros o Ho Hv; [reflexivity|].
  unfold runningTotal. simpl.
  destruct (String.eqb (category t) c); [|apply IH; assumption].
  fold (runningTotal c es (Some (add (orZero o) (amount t)))).
  assert (P : plus (add (orZero o) (amount t))) by now apply add_plus.
  rewrite IH.
  - rewrite (orZero_plus _ P).
    now destruct (List.filter _ es).
  - now rewrite (orZero_plus _ P).
  - intros v E. now injection E as <-.
Qed.

Lemma filter_filter {A : Type} (f g : A -> bool) (l : list A) :
  List.filter g (List.filter f l) = List.filter (fun x => f x && g x) l.
Proof.
  induction l as [|x l IH]; simpl; [reflexivity|].
  destruct (f x); simpl; [destruct (g x)|]; now rewrite IH.
Qed.

(** When every amount of the store is zero or more, the value of a
    category in the pie chart is the sum, taken from left to right, of
    the amounts of the expenses of that category; a category without
    expense has no value. *)
Theorem catMap_totals (ts : list Transaction) :
  Forall TransactionList.amount_nonneg ts ->
  forall c,
    Map_get (catMap ts) c
    = match expensesOf c ts with
      | [] => None
      | l => Some (sumAmounts l)
      end.
Proof.
  intros Inv c.
  destruct (fold_step (List.filter isExpense ts) [] (NoDup_nil _)) as [_ [_ V]].
  unfold catMap. fold step. rewrite V. simpl Map_get.
  rewrite runningTotal_sum.
  - rewrite filter_filter. reflexivity.
  - now apply Forall_filter.
  - exact I.
  - discriminate.
Qed.

(** ** The insight panel *)


(** ** The colours of the pie *)

(** Every cell of the pie has a colour, whatever the number of
    categories: the seven colours are used in turn. *)
Theorem cellColor_cycles (index : nat) :
  (exists c, cellColor index = Some c /\ In c COLORS)
  /\ cellColor (index + 7) = cellColor index.
Proof.
  unfold cellColor. change (List.length COLORS) with 7%nat. split.
  - destruct (nth_error COLORS (index mod 7)) as [c|] eqn:E.
    + exists c. split; [reflexivity | eapply nth_error_In; exact E].
    + apply nth_error_None in E. change (List.length COLORS) with 7%nat in E.
      pose proof (Nat.mod_upper_bound index 7). lia.
  - replace (index + 7)%nat with (index + 1 * 7)%nat by lia.
    now rewrite Nat.Div0.mod_add.
Qed.

(** ** Scenarios *)

(** The dashboard of the seed data, as it prints. *)
Example seed_dashboard :
  (let t := summary App.INITIAL_DATA in
   (Number.toString (income t), Number.toString (expense t),
    Number.toString (balance t)))
  = ("4500", "4666.18", "-166.1800000000003")
  /\ map (fun e => (fst e, Number.toString (snd e))) (catMap App.INITIAL_DATA)
     = [ ("Food & Dining", "131"); ("Transportation", "24");
         ("Entertainment", "15.99"); ("Utilities", "145.2");
         ("Shopping", "2500"); ("Housing", "1800"); ("Uncategorized", "49.99") ].
Proof. split; vm_compute; reflexivity. Qed.

Lemma summary_nonneg_witness :
  Number.leb Number.zero (expense (summary App.INITIAL_DATA)) = true
  /\ isNaN (income (summary App.INITIAL_DATA)) = false.
Proof.
  destruct (summary_nonneg App.INITIAL_DATA) as [_ [H2 [H3 _]]].
  - repeat constructor.
  - split; assumption.
Defined.

Lemma catMap_totals_witness :
  Map_get (catMap App.INITIAL_DATA) "Food & Dining"
  = Some (sumAmounts (expensesOf "Food & Dining" App.INITIAL_DATA))
  /\ Map_get (catMap App.INITIAL_DATA) "Income" = None.
Proof.
  assert (Inv : Forall TransactionList.amount_nonneg App.INITIAL_DATA)
    by repeat constructor.
  split.
  - exact (catMap_totals App.INITIAL_DATA Inv "Food & Dining").
  - exact (catMap_totals App.INITIAL_DATA Inv "Income").
Defined.


End DashboardSpec.

(* ================================================================== *)
(** * How the operations of the transaction view compose *)
(* ================================================================== *)

Module TransactionListFlowSpec.
Import Number Types Host GeminiService TransactionList JS JSFacts Flows.

(** ** Decimal strings *)

Lemma N_toString_inj (a b : N) : N_toString a = N_toString b -> a = b.
Proof.
  unfold N_toString. intros E.
  assert (Na : forall n, N.to_uint n <> Decimal.Nil).
  { intros [|p]; [discriminate | apply DecimalPos.Unsigned.to_uint_nonnil]. }
  apply (f_equal NilZero.uint_of_string) in E.
  rewrite !NilZero.usu in E by apply Na.
  injection E as E. now apply DecimalN.Unsigned.to_uint_inj.
Qed.

Lemma append_inj (a c b d : string) :
  String.length a = String.length c ->
  (a ++ b)%string = (c ++ d)%string -> a = c /\ b = d.
Proof.
  revert c. induction a as [|x a IH]; intros [|y c] L E; try discriminate.
  - now split.
  - simpl in L, E. injection L as L. injection E as -> E.
    destruct (IH c L E) as [-> ->]. now split.
Qed.

Section WithHost.
Context `{Host}.

(** ** The automatic categorization *)

Lemma isUncategorized_false (t : Transaction) :
  categorizedName (category t) -> isUncategorized t = false.
Proof.
  unfold categorizedName, isUncategorized. intros [H1 H2].
  apply String.eqb_neq in H1. rewrite H1. simpl.
  destruct (category t); [congruence | reflexivity].
Qed.

Lemma runAutoCategorization_idle (s : State) :
  List.filter isUncategorized (transactions s) = [] ->
  runAutoCategorization s = s.
Proof. intros P. unfold runAutoCategorization. now rewrite P. Qed.

Lemma runAutoCategorization_merges (s : State) (results : list Categorized) :
  List.filter isUncategorized (transactions s) <> [] ->
  categorizeTransactions (List.filter isUncategorized (transactions s))
  = Returns results ->
  transactions (runAutoCategorization s)
  = mergeCategorized results (transactions s).
Proof.
  intros P C. unfold runAutoCategorization. rewrite C.
  destruct (List.filter isUncategorized (transactions s)); [congruence|].
  reflexivity.
Qed.


Lemma merge_one (results : list Categorized) (t : Transaction) :
  id match JS.find (fun r => String.eqb (r_id r) (id t)) results with
     | Some match_ =>
         with_category_isAnomaly t (r_category match_) (r_isAnomaly match_)
     | None => t
     end = id t.
Proof. now destruct (JS.find _ results). Qed.

(** Merging the same response a second time changes nothing more. *)
Theorem mergeCategorized_idempotent (results : list Categorized)
  (prev : list Transaction) :
  mergeCategorized results (mergeCategorized results prev)
  = mergeCategorized results prev.
Proof.
  unfold mergeCategorized. rewrite map_map. apply map_ext. intros t.
  rewrite merge_one. now destruct (JS.find _ results).
Qed.

(** When the response gives a real category to every record and has a
    record for every transaction that was sent, no transaction is left
    to categorize, and running the categorization again does nothing:
    it does not even call the model. *)
Theorem runAutoCategorization_settles (s : State) (results : list Categorized) :
  categorizeTransactions (List.filter isUncategorized (transactions s))
  = Returns results ->
  (forall r, In r results -> categorizedName (r_category r)) ->
  (forall t, In t (transactions s) -> isUncategorized t = true ->
             exists r, In r results /\ r_id r = id t) ->
  let s' := runAutoCategorization s in
  List.filter isUncategorized (transactions s') = []
  /\ runAutoCategorization s' = s'.
Proof.
  intros C Hreal Hcover s'.
  assert (F : List.filter isUncategorized (transactions s') = []).
  { unfold s'.
    destruct (List.filter isUncategorized (transactions s)) as [|t0 l0] eqn:P.
    - now rewrite (runAutoCategorization_idle s P).
    - rewrite (runAutoCategorization_merges s results); [|congruence|congruence].
      clear P C. unfold mergeCategorized.
      induction (transactions s) as [|t l IH]; [reflexivity|].
      simpl.
      assert (U : isUncategorized
                    match JS.find (fun r => String.eqb (r_id r) (id t)) results with
                    | Some match_ =>
                        with_category_isAnomaly t (r_category match_)
                                                (r_isAnomaly match_)
                    | None => t
                    end = false).
      { destruct (JS.find _ results) as [r|] eqn:E.
        - apply isUncategorized_false. simpl. apply Hreal.
          unfold JS.find in E. now apply find_some in E.
        - destruct (isUncategorized t) eqn:Ut; [|reflexivity].
          destruct (Hcover t (or_introl eq_refl) Ut) as [r [Hr Hi]].
          exfalso.
          exact (proj1 (TransactionListSpec.find_absent results (id t)) E r Hr Hi). }
      rewrite U. apply IH.
      intros t' Ht'. apply Hcover. now right. }
  split; [exact F|].
  now apply runAutoCategorization_idle.
Qed.

(** ** The manual edit *)

(** Of two edits of the same transaction the later one wins, and edits
    of different transactions can be made in either order. *)
Theorem handleCategoryChange_compose (i j c d : string) (s : State) :
  handleCategoryChange i d (handleCategoryChange i c s)
  = handleCategoryChange i d s
  /\ (i <> j ->
      handleCategoryChange i c (handleCategoryChange j d s)
      = handleCategoryChange j d (handleCategoryChange i c s)).
Proof.
  unfold handleCategoryChange, setEditingId, setTransactions, changeCategory.
  simpl. split.
  - f_equal. rewrite map_map. apply map_ext. intros t.
    destruct (String.eqb (id t) i) eqn:E; simpl; now rewrite E.
  - intros Hij. f_equal. rewrite !map_map. apply map_ext. intros t.
    destruct (String.eqb (id t) i) eqn:Ei;
      destruct (String.eqb (id t) j) eqn:Ej;
      simpl; rewrite ?Ei, ?Ej; try reflexivity.
    apply String.eqb_eq in Ei, Ej. congruence.
Qed.

(** ** The import *)

(** What a line pushes: nothing, or one transaction that is
    uncategorized, carries no anomaly flag, and has the clock reading and
    the index of the line as its id. *)
Lemma importLine_pushes (tick : nat) (line : string) (idx : nat) :
  fst (importLine tick line idx) = []
  \/ exists t,
      fst (importLine tick line idx) = [t]
      /\ category t = "Uncategorized" /\ isAnomaly t = None
      /\ id t = (N_toString (Date_now tick) ++ N_toString (N.of_nat idx))%string.
Proof.
  unfold importLine.
  destruct (3 <=? List.length (split "," line))%nat; [|now left].
  destruct (negb (isNaN (parseFloat (nth 2 (split "," line) "")))); [|now left].
  right. destruct (truthy_string (trim (nth 0 (split "," line) "")));
    (eexists; split; [reflexivity|]); simpl; auto.
Qed.

Lemma importLines_pushes (lines : list string) :
  forall idx tick,
    Forall (fun t => category t = "Uncategorized" /\ isAnomaly t = None
                     /\ exists k j, (idx <= j)%nat
                          /\ id t = (N_toString (Date_now k)
                                       ++ N_toString (N.of_nat j))%string)
           (fst (importLines lines idx tick))
    /\ (List.length (fst (importLines lines idx tick)) <= List.length lines)%nat.
Proof.
  induction lines as [|line lines IH]; intros idx tick.
  - split; [constructor | reflexivity].
  - simpl. pose proof (importLine_pushes tick line idx) as P.
    destruct (importLine tick line idx) as [pushed tick1].
    pose proof (IH (S idx) tick1) as [F L].
    destruct (importLines lines (S idx) tick1) as [more tick2].
    simpl in *.
    assert (F' : Forall (fun t => category t = "Uncategorized" /\ isAnomaly t = None
                     /\ exists k j, (idx <= j)%nat
                          /\ id t = (N_toString (Date_now k)
                                       ++ N_toString (N.of_nat j))%string) more).
    { revert F. apply Forall_impl. intros t [Hc [Ha [k [j [Hj Hi]]]]].
      repeat split; auto. exists k, j. split; [lia | exact Hi]. }
    destruct P as [-> | [t [-> [Hc [Ha Hi]]]]]; simpl.
    + split; [exact F' | lia].
    + split; [|lia]. constructor; [|exact F'].
      repeat split; auto. exists tick, idx. split; [lia | exact Hi].
Qed.

Lemma filter_all {A : Type} (f : A -> bool) (l : list A) :
  Forall (fun x => f x = true) l -> List.filter f l = l.
Proof.
  induction 1 as [|x l Hx _ IH]; simpl; [reflexivity|]. now rewrite Hx, IH.
Qed.

Lemma filter_none {A : Type} (f : A -> bool) (l : list A) :
  Forall (fun x => f x = false) l -> List.filter f l = [].
Proof.
  induction 1 as [|x l Hx _ IH]; simpl; [reflexivity|]. now rewrite Hx.
Qed.

(** Every imported transaction is pending categorization, so the next
    automatic categorization sends it; the import raises no anomaly; and
    it adds at most one transaction for each line after the first, so a
    text without a line feed adds nothing. *)
Theorem handleFileUpload_pending (text : string) (s : State) :
  let s' := handleFileUpload (Some text) s in
  let imported := fst (parseCsv text (ticks s)) in
  Forall (fun t => category t = "Uncategorized" /\ isAnomaly t = None) imported
  /\ List.filter isUncategorized (transactions s')
     = (List.filter isUncategorized (transactions s) ++ imported)%list
  /\ Dashboard.anomalies (transactions s') = Dashboard.anomalies (transactions s)
  /\ (List.length imported
      <= List.length (split (ascii_of_nat 10) text) - 1)%nat.
Proof.
  intros s' imported.
  assert (P : Forall (fun t => category t = "Uncategorized" /\ isAnomaly t = None)
                     imported
              /\ (List.length imported
                  <= List.length (split (ascii_of_nat 10) text) - 1)%nat).
  { unfold imported, parseCsv. rewrite slice_1.
    destruct (importLines_pushes (tl (split (ascii_of_nat 10) text)) 0 (ticks s))
      as [F L].
    split.
    - revert F. apply Forall_impl. tauto.
    - rewrite <- length_tl. exact L. }
  destruct P as [F L].
  split; [exact F|]. split; [|split; [|exact L]].
  - unfold s'. rewrite TransactionListSpec.handleFileUpload_transactions.
    rewrite filter_app. f_equal. fold imported. apply filter_all.
    revert F. apply Forall_impl. intros t [Hc _].
    unfold isUncategorized. now rewrite Hc.
  - unfold s'. rewrite TransactionListSpec.handleFileUpload_transactions.
    unfold Dashboard.anomalies. rewrite filter_app. fold imported.
    rewrite <- app_nil_r. f_equal. apply filter_none.
    revert F. apply Forall_impl. intros t [_ Ha]. now rewrite Ha.
Qed.

(** When the readings of the clock all have the same number of digits,
    as those of one import have, the ids that an import gives are
    pairwise distinct. *)
Theorem handleFileUpload_ids_distinct (text : string) (tick : nat) :
  (forall k1 k2,
      String.length (N_toString (Date_now k1))
      = String.length (N_toString (Date_now k2))) ->
  NoDup (map id (fst (parseCsv text tick))).
Proof.
  intros W. unfold parseCsv. generalize (slice 1 None (split (ascii_of_nat 10) text)).
  generalize 0%nat. intros idx lines. revert idx tick.
  induction lines as [|line lines IH]; intros idx tick; [constructor|].
  simpl. pose proof (importLine_pushes tick line idx) as P.
  destruct (importLine tick line idx) as [pushed tick1].
  pose proof (IH (S idx) tick1) as N.
  destruct (importLines_pushes lines (S idx) tick1) as [F _].
  destruct (importLines lines (S idx) tick1) as [more tick2].
  simpl in *.
  destruct P as [-> | [t [-> [_ [_ Hi]]]]]; simpl; [exact N|].
  constructor; [|exact N].
  intros Hin. apply in_map_iff in Hin. destruct Hin as [t' [E Ht']].
  rewrite Forall_forall in F.
  destruct (F t' Ht') as [_ [_ [k [j [Hj Hi']]]]].
  rewrite Hi, Hi' in E.
  apply append_inj in E; [|apply W].
  destruct E as [_ E]. apply N_toString_inj in E. lia.
Qed.






End WithHost.

(** ** The store over all runs *)

Lemma amount_nonneg_map (f : Transaction -> Transaction) (l : list Transaction) :
  (forall t, amount (f t) = amount t) ->
  Forall amount_nonneg l -> Forall amount_nonneg (map f l).
Proof.
  intros Hf Inv. apply Forall_map. revert Inv. apply Forall_impl.
  intros t Ht. unfold amount_nonneg. now rewrite Hf.
Qed.

Lemma Reachable_nonneg (s : State) :
  Reachable s -> Forall amount_nonneg (transactions s).
Proof.
  induction 1 as [s E | h file s _ IH | id_ c s _ IH | h s _ IH].
  - rewrite E. repeat constructor.
  - destruct file as [text|]; [|exact IH].
    rewrite TransactionListSpec.handleFileUpload_transactions.
    apply Forall_app. split; [exact IH|].
    apply TransactionListSpec.importLines_nonneg.
  - simpl. apply amount_nonneg_map; [|exact IH].
    intros t. now destruct (String.eqb (id t) id_).
  - unfold runAutoCategorization.
    destruct (List.length (List.filter isUncategorized (transactions s)) =? 0)%nat;
      [exact IH|].
    destruct (categorizeTransactions _) as [results | e]; simpl.
    + apply amount_nonneg_map; [|exact IH].
      intros t. now destruct (JS.find _ results).
    + destruct (_ || _); exact IH.
Qed.

(** From the seed data, whatever imports, manual edits and automatic
    categorizations are made and whatever the model answers, every
    amount of the store is zero or more and the income and expense
    totals of the dashboard are never negative and never NaN. *)
Theorem Reachable_totals (s : State) :
  Reachable s ->
  Forall amount_nonneg (transactions s)
  /\ Number.leb Number.zero (Dashboard.income (Dashboard.summary (transactions s))) = true
  /\ Number.leb Number.zero (Dashboard.expense (Dashboard.summary (transactions s))) = true
  /\ isNaN (Dashboard.income (Dashboard.summary (transactions s))) = false
  /\ isNaN (Dashboard.expense (Dashboard.summary (transactions s))) = false.
Proof.
  intros R. pose proof (Reachable_nonneg s R) as Inv.
  split; [exact Inv|].
  assert (P : forall f, Dashboard.plus (Dashboard.sumAmounts (List.filter f (transactions s)))).
  { intros f. apply DashboardSpec.fold_add_plus;
      [now apply DashboardSpec.Forall_filter | exact I]. }
  destruct (DashboardSpec.plus_nonneg _ (P Dashboard.isIncome)) as [H1 H2].
  destruct (DashboardSpec.plus_nonneg _ (P Dashboard.isExpense)) as [H3 H4].
  simpl. auto.
Qed.

(** ** Scenarios *)


Lemma runAutoCategorization_settles_witness :
  let h := Scripted.host (Resolved (Some Scripted.categorized)) Scripted.quiet
                         Scripted.engine Scripted.start in
  let s := setTransactions (fun _ => [Scripted.coffee]) Scripted.listView in
  runAutoCategorization (runAutoCategorization s) = runAutoCategorization s.
Proof.
  intros h s.
  refine (proj2 (runAutoCategorization_settles (H := h) s [Scripted.food] _ _ _)).
  - vm_compute. reflexivity.
  - intros r [<- | []]. split; discriminate.
  - intros t [<- | []] _. exists Scripted.food. split; [now left | reflexivity].
Defined.

Lemma handleCategoryChange_compose_witness :
  handleCategoryChange "9" "Shopping"
    (handleCategoryChange "7" "Entertainment" Scripted.listView)
  = handleCategoryChange "7" "Entertainment"
      (handleCategoryChange "9" "Shopping" Scripted.listView).
Proof.
  apply (proj2 (handleCategoryChange_compose "9" "7" "Shopping" "Entertainment"
                                             Scripted.listView)).
  discriminate.
Defined.

Lemma handleFileUpload_ids_distinct_witness :
  let h := Flows.frozen (Resolved None) Scripted.quiet in
  NoDup (map id (fst (parseCsv Scripted.statement 0))).
Proof.
  intros h. apply (handleFileUpload_ids_distinct (H := h)).
  intros k1 k2. reflexivity.
Defined.

Lemma Reachable_totals_witness :
  let h := Scripted.host (Resolved (Some Scripted.categorized)) Scripted.quiet
                         Scripted.engine Scripted.start in
  let s := runAutoCategorization
             (handleCategoryChange "9" "Shopping"
                (handleFileUpload (Some Scripted.statement) Scripted.listView)) in
  Number.leb Number.zero (Dashboard.expense (Dashboard.summary (transactions s)))
  = true.
Proof.
  intros h s.
  refine (proj1 (proj2 (proj2 (Reachable_totals s _)))).
  apply (reach_categorize h), reach_edit, (reach_upload h), reach_seed.
  reflexivity.
Defined.

End TransactionListFlowSpec.

(* ================================================================== *)
(** * What a send leaves in the chat view *)
(* ================================================================== *)

Module ChatBotFlowSpec.
Import Number Types Host GeminiService ChatBot JS JSFacts Flows.

(** Every character of [whiteSpaceCodes] is one that [trim] removes. *)
Lemma stripWhite_utf8 (cp : N) (s : string) :
  In cp whiteSpaceCodes -> stripWhite (utf8 cp ++ s) = Some s.
Proof.
  intros Hin. unfold whiteSpaceCodes in Hin. simpl In in Hin.
  repeat (destruct Hin as [<- | Hin]; [vm_compute; reflexivity|]).
  contradiction.
Qed.

Lemma length_utf8_append (cp : N) (s : string) :
  (S (String.length s) <= String.length (utf8 cp ++ s))%nat.
Proof.
  unfold utf8. destruct (cp <? 128)%N; [simpl; lia|].
  destruct (cp <? 2048)%N; simpl; lia.
Qed.

Lemma trimStart_white (s : string) :
  WhiteSpace s ->
  forall fuel, (String.length s <= fuel)%nat -> trimStart_fuel fuel s = "".
Proof.
  induction 1 as [|cp s Hin W IH]; intros fuel L.
  - now destruct fuel.
  - pose proof (length_utf8_append cp s) as L'.
    destruct fuel as [|fuel]; [lia|].
    cbn [trimStart_fuel]. rewrite (stripWhite_utf8 cp s Hin).
    apply IH. lia.
Qed.

Lemma trim_white (s : string) : WhiteSpace s -> trim s = "".
Proof.
  intros W. unfold trim, trimStart.
  now rewrite (trimStart_white s W (String.length s) (Nat.le_refl _)).
Qed.

Section WithHost.
Context `{Host}.

(** An input made of white space only (any of the white-space
    characters and line terminators of the language, ASCII or not) is
    not sent, and nothing is sent while an answer is streaming: the
    handler leaves the view as it is, with no message added and the
    input kept. *)
Theorem handleSend_ignores (s : State) :
  WhiteSpace (inputValue s) \/ isStreaming s = true ->
  handleSend s = Returns s.
Proof.
  intros [B | B]; unfold handleSend.
  - now rewrite (trim_white _ B).
  - rewrite B. now rewrite orb_true_r.
Qed.

(** The [catch] block after the stream: it returns, and replaces or
    follows the answer streamed so far. *)
Lemma catchError_streamed (s : State) (e : JsValue)
  (chunks : list (option string)) (init : list ChatMessage) :
  messages (drain (streamed s chunks)) = (init ++ [answerOf s chunks])%list ->
  exists s',
    catchError e (streamed s chunks) = Returns s'
    /\ messages s'
       = (init ++ if String.eqb (text (answerOf s chunks)) ""
                  then [errorMessageOf s e]
                  else [answerOf s chunks; errorMessageOf s e])%list
    /\ isStreaming s' = true
    /\ inputValue s' = "".
Proof.
  intros Hm.
  destruct (ChatBotSpec.streamed_state s chunks) as [_ [_ [_ [_ [Hv [Hs Ht]]]]]].
  unfold catchError. rewrite Hm, ChatBotSpec.replaceOrAppend_last, Ht.
  eexists. split; [reflexivity|].
  cbn [install setTicks messages isStreaming inputValue].
  split; [|split; [exact Hs | exact Hv]].
  change (role (answerOf s chunks)) with model. cbn [Role_eqb andb].
  now destruct (String.eqb (text (answerOf s chunks)) "").
Qed.

(** The list before the [catch] block or the end of the handler ends
    with the answer streamed so far. *)
Lemma streamed_answer (s : State) (chunks : list (option string)) :
  exists init,
    messages (drain (streamed s chunks)) = (init ++ [answerOf s chunks])%list
    /\ List.length init = S (List.length (messages s)).
Proof.
  destruct (ChatBotSpec.streamed_state s chunks) as [Hm _].
  rewrite Hm. apply ChatBotSpec.listAfter_last.
Qed.

(** When the failure of the stream, if there is one, is a value that the
    classifier reads, a send completes: the updater of the [catch] block
    always finds a last message, so that it does not raise.  The send
    leaves the busy flag as it found it, that is off unless an answer
    was already streaming, and it never shortens the list: it adds at
    most three messages, whether or not an earlier message has the id
    of the placeholder. *)
Theorem handleSend_grows (s : State) :
  exists s',
    handleSend s = Returns s'
    /\ isStreaming s' = isStreaming s
    /\ (List.length (messages s) <= List.length (messages s')
        <= List.length (messages s) + 3)%nat.
Proof.
  destruct (truthy_string (trim (inputValue s))) eqn:T;
    [destruct (isStreaming s) eqn:B|].
  - exists s. unfold handleSend. rewrite T, B. simpl. repeat split; lia.
  - rewrite (ChatBotSpec.handleSend_sends s T B).
    assert (Hc : forall e chunks,
               exists s',
                 finally_ (catchError e (streamed s chunks)) = Returns s'
                 /\ isStreaming s' = false
                 /\ (List.length (messages s) <= List.length (messages s')
                     <= List.length (messages s) + 3)%nat).
    { intros e chunks.
      destruct (streamed_answer s chunks) as [init [Hm Hi]].
      destruct (catchError_streamed s e chunks init Hm) as [s1 [E [M _]]].
      rewrite E. simpl finally_. eexists. split; [reflexivity|].
      cbn [show setIsStreaming isStreaming messages]. split; [reflexivity|].
      rewrite M, length_app, Hi.
      destruct (String.eqb _ ""); simpl; lia. }
    destruct (sendMessageStream (inputValue s)) as [e | chunks [e|]].
    + apply (Hc e []).
    + apply Hc.
    + simpl finally_. eexists. split; [reflexivity|].
      cbn [show setIsStreaming isStreaming messages]. split; [reflexivity|].
      destruct (streamed_answer s chunks) as [init [Hm Hi]].
      rewrite Hm, length_app, Hi. simpl. lia.
  - exists s. unfold handleSend. rewrite T. simpl. repeat split; lia.
Qed.

Lemma map_fill_other (b t : string) (l : list ChatMessage) :
  Forall (fun m => msg_id m <> b) l -> map (fill b t) l = l.
Proof.
  induction 1 as [|m l Hm _ IH]; simpl; [reflexivity|].
  unfold fill at 1. apply String.eqb_neq in Hm. now rewrite Hm, IH.
Qed.

(** When no earlier message has the id of the placeholder and the clock
    has not gone back since the message of the user was stamped, a send
    keeps every earlier message as it is and appends the message of the
    user followed by: the answer, when the stream completes; the error
    message, when it fails before any text arrived; the partial answer
    and then the error message, when it fails after some text.  The
    input is cleared and the busy flag is off at the end. *)
Theorem handleSend_appends (s : State) :
  truthy_string (trim (inputValue s)) = true ->
  isStreaming s = false ->
  Forall (fun m => msg_id m <> botMsgIdOf s) (messages s) ->
  (Date_now (ticks s) <= Date_now (S (S (ticks s))))%N ->
  exists s',
    handleSend s = Returns s'
    /\ messages s' = (messages s ++ userMsgOf s :: tailOf s)%list
    /\ isStreaming s' = false
    /\ inputValue s' = "".
Proof.
  intros T B Fresh Clock.
  assert (U : msg_id (userMsgOf s) <> botMsgIdOf s).
  { unfold userMsgOf, botMsgIdOf. simpl. intros E.
    apply TransactionListFlowSpec.N_toString_inj in E. lia. }
  assert (M : forall chunks,
             messages (drain (streamed s chunks))
             = ((messages s ++ [userMsgOf s]) ++ [answerOf s chunks])%list).
  { intros chunks.
    destruct (ChatBotSpec.streamed_state s chunks) as [-> _].
    unfold listAfter. destruct chunks as [|c chunks]; [reflexivity|].
    rewrite map_app. simpl map.
    rewrite ChatBotSpec.fill_placeholder, map_fill_other; [reflexivity|].
    apply Forall_app. split; [exact Fresh | constructor; [exact U | constructor]]. }
  rewrite (ChatBotSpec.handleSend_sends s T B). unfold tailOf.
  destruct (sendMessageStream (inputValue s)) as [e | chunks [e|]].
  - destruct (catchError_streamed s e [] _ (M [])) as [s1 [E [Hm [Hs Hv]]]].
    change (streamed s []) with (opened s) in E. rewrite E. simpl finally_.
    eexists. split; [reflexivity|].
    cbn [show setIsStreaming isStreaming messages inputValue].
    split; [|split; [reflexivity | exact Hv]].
    rewrite Hm. simpl. now rewrite <- app_assoc.
  - destruct (catchError_streamed s e chunks _ (M chunks)) as [s1 [E [Hm [Hs Hv]]]].
    rewrite E. simpl finally_.
    eexists. split; [reflexivity|].
    cbn [show setIsStreaming isStreaming messages inputValue].
    split; [|split; [reflexivity | exact Hv]].
    rewrite Hm. rewrite <- app_assoc. reflexivity.
  - simpl finally_. eexists. split; [reflexivity|].
    cbn [show setIsStreaming isStreaming messages inputValue].
    destruct (ChatBotSpec.streamed_state s chunks) as [_ [_ [_ [_ [Hv _]]]]].
    split; [|split; [reflexivity | exact Hv]].
    rewrite M, <- app_assoc. reflexivity.
Qed.

End WithHost.

(** ** Scenarios *)

Lemma handleSend_ignores_witness :
  let h := Scripted.host (Resolved None) (Chunks Scripted.greeting None)
                         Scripted.engine Scripted.start in
  let s := setInputValue (" " ++ utf8 160 ++ utf8 12288 ++ utf8 10)
                         Scripted.chatView in
  handleSend s = Returns s.
Proof.
  intros h s. apply (handleSend_ignores (H := h)). left.
  apply (white_char 32), (white_char 160), (white_char 12288),
        (white_char 10), white_empty; vm_compute; tauto.
Defined.

Lemma handleSend_appends_witness :
  let h := Scripted.host (Resolved None)
                         (Chunks [Some "Hel"] (Some Scripted.NetworkError))
                         Scripted.engine Scripted.start in
  exists s',
    handleSend Scripted.chatView = Returns s'
    /\ messages s'
       = (messages Scripted.chatView
            ++ [ userMsgOf Scripted.chatView;
                 answerOf Scripted.chatView [Some "Hel"];
                 errorMessageOf Scripted.chatView Scripted.NetworkError ])%list.
Proof.
  intros h.
  destruct (handleSend_appends (H := h) Scripted.chatView) as [s' [E [M _]]].
  - reflexivity.
  - reflexivity.
  - constructor; [|constructor]. vm_compute. discriminate.
  - vm_compute. discriminate.
  - exists s'. split; [exact E | exact M].
Defined.

End ChatBotFlowSpec.
